(** * Star Shop bot: conversation engine, referral ledger and usage statistics

    A shallow embedding of the Telegram bot in [src/api/working_main.py]
    together with its two storage back ends, [src/database.py] (SQLite) and
    [src/api/database.py] (Supabase), followed by the properties of the
    specification that were checked against it.

    Layout:
    - [PyNum]      the Python number layer the handlers rely on: [float(text)],
                   [int(text)], [round(x, 2)], the [.2f] format and [str(int)];
    - [Ledger]     the persisted schema shared by both back ends;
    - [Sqlite]     [src/database.py];
    - [Supabase]   [src/api/database.py], the back end imported by the bot;
    - [Interleave] the two-request structure of the Supabase increment;
    - [Bot]        [src/api/working_main.py] and the handler table of
                   [src/api/index.py];
    - the theorems. *)

From Stdlib Require Import ZArith NArith List String Ascii Bool Lia.
From Stdlib Require Import Floats.SpecFloat.
From Stdlib Require Import DecimalString DecimalN DecimalPos.
Import ListNotations.

Open Scope string_scope.
Open Scope Z_scope.

(* ================================================================== *)
(** * Python numbers *)
(* ================================================================== *)

Module PyNum.

(** Python's [float] is IEEE 754 binary64.  The Standard Library's
    [spec_float] with [prec = 53] and [emax = 1024] is used as it is. *)
Definition float : Type := spec_float.
Definition prec : Z := 53.
Definition emax : Z := 1024.

Definition float_mul (x y : float) : float := SFmul prec emax x y.

(** [x >= y] and [x < y] on floats; [nan] compares false with everything. *)
Definition float_ge (x y : float) : bool := SFleb y x.
Definition float_lt (x y : float) : bool := SFltb x y.

Definition is_finite (x : float) : bool :=
  match x with
  | S754_zero _ | S754_finite _ _ _ => true
  | S754_infinity _ | S754_nan => false
  end.

(** The binary64 value nearest to [n * 10^k] (ties to even), as CPython's
    correctly rounded string-to-double conversion returns it. *)
Definition float_of_decimal (neg : bool) (n : N) (k : Z) : float :=
  match n with
  | N0 => S754_zero neg
  | Npos p =>
      if 0 <=? k
      then binary_round prec emax neg (p * Z.to_pos (10 ^ k)) 0
      else SFdiv prec emax (S754_finite neg p 0)
                          (S754_finite false (Z.to_pos (10 ^ (- k))) 0)
  end.

(** ** Lexical layer *)

Definition nl : string := String (ascii_of_nat 10) "".

(** The blanks that [float] and [int] skip at both ends of an ASCII text:
    the space and TAB..CR. *)
Definition is_space (c : ascii) : bool :=
  let n := nat_of_ascii c in
  ((n =? 32) || ((9 <=? n) && (n <=? 13)))%nat.

Fixpoint lstrip (s : string) : string :=
  match s with
  | String c s' => if is_space c then lstrip s' else s
  | EmptyString => EmptyString
  end.

Fixpoint rstrip (s : string) : string :=
  match s with
  | String c s' =>
      match rstrip s' with
      | EmptyString => if is_space c then EmptyString else String c EmptyString
      | r => String c r
      end
  | EmptyString => EmptyString
  end.

Definition strip (s : string) : string := rstrip (lstrip s).

(** A decimal digit prepends itself to the digits that follow it. *)
Definition digit_of_ascii (c : ascii) : option (Decimal.uint -> Decimal.uint) :=
  match nat_of_ascii c with
  | 48%nat => Some Decimal.D0 | 49%nat => Some Decimal.D1
  | 50%nat => Some Decimal.D2 | 51%nat => Some Decimal.D3
  | 52%nat => Some Decimal.D4 | 53%nat => Some Decimal.D5
  | 54%nat => Some Decimal.D6 | 55%nat => Some Decimal.D7
  | 56%nat => Some Decimal.D8 | 57%nat => Some Decimal.D9
  | _ => None
  end.

Definition is_digit (c : ascii) : bool :=
  match digit_of_ascii c with Some _ => true | None => false end.

Definition is_underscore (c : ascii) : bool := (nat_of_ascii c =? 95)%nat.

(** The tail of a [digitpart]: [(["_"] digit)*].  An underscore that is not
    followed by a digit is left in the remainder. *)
Fixpoint read_digits (s : string) : Decimal.uint * string :=
  match s with
  | String c s' =>
      match digit_of_ascii c with
      | Some d => let (ds, r) := read_digits s' in (d ds, r)
      | None =>
          if is_underscore c then
            match s' with
            | String c' s'' =>
                match digit_of_ascii c' with
                | Some d => let (ds, r) := read_digits s'' in (d ds, r)
                | None => (Decimal.Nil, s)
                end
            | EmptyString => (Decimal.Nil, s)
            end
          else (Decimal.Nil, s)
      end
  | EmptyString => (Decimal.Nil, s)
  end.

(** [digitpart ::= digit (["_"] digit)*] *)
Definition read_digitpart (s : string) : option (Decimal.uint * string) :=
  match s with
  | String c _ => if is_digit c then Some (read_digits s) else None
  | EmptyString => None
  end.

Definition read_sign (s : string) : bool * string :=
  match s with
  | String c s' =>
      if Ascii.eqb c "-" then (true, s')
      else if Ascii.eqb c "+" then (false, s')
      else (false, s)
  | EmptyString => (false, s)
  end.

Definition to_lower (c : ascii) : ascii :=
  let n := nat_of_ascii c in
  if ((65 <=? n) && (n <=? 90))%nat then ascii_of_nat (n + 32) else c.

Fixpoint lower (s : string) : string :=
  match s with
  | String c s' => String (to_lower c) (lower s')
  | EmptyString => EmptyString
  end.

(** [number ::= [digitpart] "." digitpart | digitpart ["."]], returned as a
    mantissa and a decimal exponent.  [read_fraction] continues after the
    integer part [ip]. *)
Definition read_fraction (ip : Decimal.uint) (r : string) : N * Z * string :=
  match r with
  | String c s' =>
      if Ascii.eqb c "." then
        match read_digitpart s' with
        | Some (fr, r') =>
            ((N.of_uint ip * 10 ^ N.of_nat (Decimal.nb_digits fr)
              + N.of_uint fr)%N,
             - Z.of_nat (Decimal.nb_digits fr), r')
        | None => (N.of_uint ip, 0, s')
        end
      else (N.of_uint ip, 0, r)
  | EmptyString => (N.of_uint ip, 0, r)
  end.

Definition read_number (s : string) : option (N * Z * string) :=
  match s with
  | String c s' =>
      if Ascii.eqb c "." then
        match read_digitpart s' with
        | Some (fr, r) =>
            Some (N.of_uint fr, - Z.of_nat (Decimal.nb_digits fr), r)
        | None => None
        end
      else
        match read_digitpart s with
        | Some (ip, r) => Some (read_fraction ip r)
        | None => None
        end
  | EmptyString => None
  end.

(** [exponent ::= ("e" | "E") [sign] digitpart], optional. *)
Definition read_exponent (s : string) : option (Z * string) :=
  match s with
  | String c s' =>
      if Ascii.eqb (to_lower c) "e" then
        let (neg, s'') := read_sign s' in
        match read_digitpart s'' with
        | Some (d, r) =>
            let x := Z.of_N (N.of_uint d) in
            Some (if neg then - x else x, r)
        | None => None
        end
      else Some (0, s)
  | EmptyString => Some (0, s)
  end.

(** ** [float(text)]

    [None] stands for [ValueError].  The grammar is the one of the language
    reference ([floatvalue]), including [inf], [infinity] and [nan] in any
    case, and the value is the correctly rounded double.  Texts are taken
    over the ASCII range: Python also accepts the decimal digits and blanks
    of other scripts, which are rejected here; the properties below either
    take the result of the conversion as given or convert texts made of
    ASCII digits. *)
Definition py_float (text : string) : option float :=
  let (neg, s) := read_sign (strip text) in
  let w := lower s in
  if String.eqb w "inf" || String.eqb w "infinity" then Some (S754_infinity neg)
  else if String.eqb w "nan" then Some S754_nan
  else
    match read_number s with
    | Some (mant, k, r) =>
        match read_exponent r with
        | Some (x, EmptyString) => Some (float_of_decimal neg mant (k + x))
        | _ => None
        end
    | None => None
    end.

(** ** [int(text)], base 10; [None] stands for [ValueError].

    ASCII texts, as for [py_float].  A message holds at most 4096
    characters, so the limit that [int] puts on the number of digits (4300)
    is never reached by an argument of [/start]. *)
Definition py_int (text : string) : option Z :=
  let (neg, s) := read_sign (strip text) in
  match read_digitpart s with
  | Some (d, EmptyString) =>
      let x := Z.of_N (N.of_uint d) in
      Some (if neg then - x else x)
  | _ => None
  end.

(** ** [str(n)] for an [int] *)
Definition str_of_N (n : N) : string := NilZero.string_of_uint (N.to_uint n).

Definition str_of_int (z : Z) : string :=
  match z with
  | Zneg p => "-" ++ str_of_N (Npos p)
  | _ => str_of_N (Z.to_N z)
  end.

(** ** Rounding to two places

    The exact value [m * 2^e] scaled by one hundred and rounded to the
    nearest integer, ties to even: the digits that both [round(x, 2)] and
    the [.2f] format obtain from the correctly rounded conversion. *)
Definition hundredths (m : positive) (e : Z) : Z :=
  if 0 <=? e then Zpos m * 2 ^ e * 100
  else
    let d := 2 ^ (- e) in
    let n := Zpos m * 100 in
    let q := n / d in
    let r := n mod d in
    match 2 * r ?= d with
    | Lt => q
    | Gt => q + 1
    | Eq => if Z.even q then q else q + 1
    end.

Definition sign_str (neg : bool) : string := if neg then "-" else "".

Definition digit_char (d : Z) : ascii := ascii_of_nat (48 + Z.to_nat d).

Definition two_digits (r : Z) : string :=
  String (digit_char (r / 10)) (String (digit_char (r mod 10)) "").

(** [f"{x:.2f}"] *)
Definition format_2f (x : float) : string :=
  match x with
  | S754_nan => "nan"
  | S754_infinity s => sign_str s ++ "inf"
  | S754_zero s => sign_str s ++ "0.00"
  | S754_finite s m e =>
      let h := hundredths m e in
      sign_str s ++ str_of_N (Z.to_N (h / 100)) ++ "." ++ two_digits (h mod 100)
  end.

(** [round(x, 2)]: the double nearest to the two-place decimal. *)
Definition py_round2 (x : float) : float :=
  match x with
  | S754_finite s m e => float_of_decimal s (Z.to_N (hundredths m e)) (-2)
  | _ => x
  end.

(** A recogniser for renderings with exactly two fractional digits:
    an optional minus sign, one or more digits, a point, two digits. *)
Fixpoint all_digits (s : string) : bool :=
  match s with
  | String c s' => is_digit c && all_digits s'
  | EmptyString => true
  end.

Fixpoint split_point (s : string) : string * option string :=
  match s with
  | String c s' =>
      if Ascii.eqb c "." then (EmptyString, Some s')
      else let (a, b) := split_point s' in (String c a, b)
  | EmptyString => (EmptyString, None)
  end.

Definition two_fraction_digits (s : string) : bool :=
  let body :=
    match s with
    | String c s' => if Ascii.eqb c "-" then s' else s
    | EmptyString => s
    end in
  match split_point body with
  | (ip, Some fr) =>
      negb (String.eqb ip "") && all_digits ip
      && all_digits fr && (String.length fr =? 2)%nat
  | (_, None) => false
  end.

(** [int / int], Python's true division: the double nearest to the exact
    quotient.  [None] stands for [ZeroDivisionError] and [OverflowError]. *)
Definition exact_of_int (z : Z) : float :=
  match z with
  | Z0 => S754_zero false
  | Zpos p => S754_finite false p 0
  | Zneg p => S754_finite true p 0
  end.

Definition int_truediv (a b : Z) : option float :=
  if b =? 0 then None
  else
    match SFdiv prec emax (exact_of_int a) (exact_of_int b) with
    | S754_infinity _ => None
    | q => Some q
    end.

(** [float(n)] for an [int], and the constants the code mentions. *)
Definition float_of_int (z : Z) : float := binary_normalize prec emax z 0 false.

Definition float_one : float := S754_finite false 4503599627370496 (-52).

(** Two recognisers used when a rendering is read back: a remainder at
    which a run of digits ends, and a text made of digits and points. *)
Definition boundary (rest : string) : Prop :=
  match rest with
  | String c _ => digit_of_ascii c = None /\ is_underscore c = false
  | EmptyString => True
  end.

Fixpoint plain (s : string) : bool :=
  match s with
  | String c s' => (is_digit c || Ascii.eqb c ".") && plain s'
  | EmptyString => true
  end.

End PyNum.

(* ================================================================== *)
(** * The persisted schema *)
(* ================================================================== *)

Module Ledger.

(** Instants are counted in microseconds, the resolution of [datetime]. *)
Definition instant : Type := Z.
Definition hour : Z := 3600000000.

(** [users(user_id PK, first_seen)] *)
Record UserRow := { user_id : Z; first_seen : instant }.
(** [referrals(referrer_id PK, count)] *)
Record ReferralRow := { referrer_id : Z; count : Z }.
(** [usage_stats(timestamp, connections)] *)
Record UsageRow := { timestamp : instant; connections : Z }.

Record Store := {
  users : list UserRow;
  referrals : list ReferralRow;
  usage_stats : list UsageRow
}.

Definition empty : Store :=
  {| users := []; referrals := []; usage_stats := [] |}.

(** The values a statistics dictionary may hold. *)
Inductive pyval :=
| PyNone
| PyInt (z : Z)
| PyFloat (f : PyNum.float).

Record UsageStats := {
  current_connections : pyval;
  peak_last_hour : pyval;
  avg_last_hour : pyval;
  all_time_max : pyval
}.

(** The dictionary both back ends return from their [except] branch. *)
Definition zero_stats : UsageStats :=
  {| current_connections := PyInt 0; peak_last_hour := PyInt 0;
     avg_last_hour := PyInt 0; all_time_max := PyInt 0 |}.

Definition has_user (uid : Z) (s : Store) : bool :=
  existsb (fun r => user_id r =? uid) (users s).

Definition has_referrer (rid : Z) (s : Store) : bool :=
  existsb (fun r => referrer_id r =? rid) (referrals s).

Definition sum_list (l : list Z) : Z := fold_right Z.add 0 l.

(** [max] of a non-empty sequence. *)
Definition max_list (x : Z) (l : list Z) : Z := fold_left Z.max l x.

(** Rows of [users] carrying a given identifier. *)
Definition user_records (uid : Z) (s : Store) : nat :=
  List.length (filter (fun r => user_id r =? uid) (users s)).

(** Usage samples of the last hour at [now].  A sample exactly one hour
    old is outside the window for [src/database.py] ([timestamp > hour_ago])
    and inside it for the filtered query of [src/api/database.py] ([gte]);
    [closed] says which. *)
Definition samples_in_last_hour (closed : bool) (now : instant) (s : Store)
  : list UsageRow :=
  filter (fun r => if closed then now - hour <=? timestamp r
                   else now - hour <? timestamp r) (usage_stats s).

(** Every sample of a list was recorded with [connections = 1]. *)
Definition only_ones (l : list UsageRow) : Prop :=
  Forall (fun r => connections r = 1) l.

End Ledger.

(* ================================================================== *)
(** * [src/database.py]: the SQLite back end *)
(* ================================================================== *)

Module Sqlite.
Import Ledger.

(** [init_db]: [CREATE TABLE IF NOT EXISTS] on a database without tables. *)
Definition init_db : Store := empty.

(** [INSERT OR IGNORE INTO users (user_id) VALUES (?)].  The statement
    leaves [first_seen] to its default: [now] stands for the value of
    [CURRENT_TIMESTAMP] at the insert (UTC, whole seconds), which is not the
    value that the Supabase back end would store for the same call. *)
Definition add_new_user (now : instant) (uid : Z) (s : Store) : Store :=
  if has_user uid s then s
  else {| users := (users s ++ [ {| user_id := uid; first_seen := now |} ])%list;
          referrals := referrals s;
          usage_stats := usage_stats s |}.

(** [INSERT ... VALUES (?, 1) ON CONFLICT(referrer_id) DO UPDATE SET
    count = count + 1]: one statement. *)
Definition increment_referral_count (rid : Z) (s : Store) : Store :=
  {| users := users s;
     referrals :=
       if has_referrer rid s
       then map (fun r => if referrer_id r =? rid
                          then {| referrer_id := rid; count := count r + 1 |}
                          else r) (referrals s)
       else (referrals s ++ [ {| referrer_id := rid; count := 1 |} ])%list;
     usage_stats := usage_stats s |}.

(** [SELECT count FROM referrals WHERE referrer_id = ?], [fetchone]. *)
Definition get_referral_count (uid : Z) (s : Store) : Z :=
  match filter (fun r => referrer_id r =? uid) (referrals s) with
  | r :: _ => count r
  | [] => 0
  end.

Definition update_usage_stats (now : instant) (s : Store) : Store :=
  {| users := users s;
     referrals := referrals s;
     usage_stats :=
       (usage_stats s ++ [ {| timestamp := now; connections := 1 |} ])%list |}.

(** [DELETE FROM usage_stats WHERE timestamp < now - 24h] *)
Definition cleanup_old_stats (now : instant) (s : Store) : Store :=
  {| users := users s;
     referrals := referrals s;
     usage_stats :=
       filter (fun r => negb (timestamp r <? now - 24 * hour)) (usage_stats s) |}.

(** SQL [MAX] and [AVG]: [NULL] over no rows. *)
Definition sql_max (l : list Z) : pyval :=
  match l with
  | x :: r => PyInt (max_list x r)
  | [] => PyNone
  end.

Definition sql_avg (l : list Z) : pyval :=
  match l with
  | _ :: _ =>
      PyFloat (SFdiv PyNum.prec PyNum.emax
                 (PyNum.float_of_int (sum_list l))
                 (PyNum.float_of_int (Z.of_nat (List.length l))))
  | [] => PyNone
  end.

(** One [SELECT COUNT( * ), MAX(connections), AVG(connections), (SELECT
    MAX(connections) FROM usage_stats) ... WHERE timestamp > hour_ago]. *)
Definition get_usage_stats (now : instant) (s : Store) : UsageStats :=
  let hour_ago := now - hour in
  let rows := filter (fun r => hour_ago <? timestamp r) (usage_stats s) in
  {| current_connections := PyInt (Z.of_nat (List.length rows));
     peak_last_hour := sql_max (map connections rows);
     avg_last_hour := sql_avg (map connections rows);
     all_time_max := sql_max (map connections (usage_stats s)) |}.

(** [SELECT COUNT(DISTINCT user_id) FROM users] *)
Definition get_unique_users_count (s : Store) : Z :=
  Z.of_nat (List.length (nodup Z.eq_dec (map user_id (users s)))).

End Sqlite.

(* ================================================================== *)
(** * [src/api/database.py]: the Supabase back end *)
(* ================================================================== *)

Module Supabase.
Import Ledger.

(** Modelled from the spec: the tables of this back end are created outside
    the repository ("via the web interface"); their declaration is the
    logical schema of the specification, [users(user_id PK, first_seen)],
    [referrals(referrer_id PK, count)] and [usage_stats(timestamp,
    connections)].  An insert that would repeat a primary key is refused by
    the service; the client raises, and every caller below catches the
    exception and leaves the table as it was. *)
Definition insert_user (row : UserRow) (s : Store) : option Store :=
  if has_user (user_id row) s then None
  else Some {| users := (users s ++ [row])%list;
               referrals := referrals s;
               usage_stats := usage_stats s |}.

Definition insert_referral (row : ReferralRow) (s : Store) : option Store :=
  if has_referrer (referrer_id row) s then None
  else Some {| users := users s;
               referrals := (referrals s ++ [row])%list;
               usage_stats := usage_stats s |}.

Definition init_db : Store := empty.

Definition add_new_user (now : instant) (uid : Z) (s : Store) : Store :=
  match insert_user {| user_id := uid; first_seen := now |} s with
  | Some s' => s'
  | None => s
  end.

(** [table('referrals').select('count').eq('referrer_id', rid).execute()]:
    the first request of an increment. *)
Definition select_count (rid : Z) (s : Store) : list Z :=
  map count (filter (fun r => referrer_id r =? rid) (referrals s)).

(** [table('referrals').update({'count': c}).eq('referrer_id', rid)] *)
Definition update_count (rid c : Z) (s : Store) : Store :=
  {| users := users s;
     referrals :=
       map (fun r => if referrer_id r =? rid
                     then {| referrer_id := referrer_id r; count := c |}
                     else r) (referrals s);
     usage_stats := usage_stats s |}.

(** The second request of an increment, decided by what the first one
    returned. *)
Definition write_back (rid : Z) (data : list Z) (s : Store) : Store :=
  match data with
  | c :: _ => update_count rid (c + 1) s
  | [] =>
      match insert_referral {| referrer_id := rid; count := 1 |} s with
      | Some s' => s'
      | None => s
      end
  end.

Definition increment_referral_count (rid : Z) (s : Store) : Store :=
  write_back rid (select_count rid s) s.

Definition get_referral_count (uid : Z) (s : Store) : Z :=
  match select_count uid s with
  | c :: _ => c
  | [] => 0
  end.

Definition update_usage_stats (now : instant) (s : Store) : Store :=
  {| users := users s;
     referrals := referrals s;
     usage_stats :=
       (usage_stats s ++ [ {| timestamp := now; connections := 1 |} ])%list |}.

(** [delete().lt('timestamp', now - 24h)] *)
Definition cleanup_old_stats (now : instant) (s : Store) : Store :=
  {| users := users s;
     referrals := referrals s;
     usage_stats :=
       filter (fun r => negb (timestamp r <? now - 24 * hour)) (usage_stats s) |}.

(** [get_usage_stats].  The first query, [select('count')], carries no
    filter although [hour_ago] is computed before it; it is read here as
    returning one entry per stored row, so that [len(current.data)] is the
    number of rows.  The second query has [.gte('timestamp', hour_ago)]; the
    third is unfiltered again.  [sum / len] failing sends the function to
    its [except] branch. *)
Definition get_usage_stats (now : instant) (s : Store) : UsageStats :=
  let hour_ago := now - hour in
  let current := usage_stats s in
  let current_connections := Z.of_nat (List.length current) in
  let stats := filter (fun r => hour_ago <=? timestamp r) (usage_stats s) in
  let last_hour :=
    match map connections stats with
    | x :: r =>
        match PyNum.int_truediv (sum_list (x :: r))
                                (Z.of_nat (List.length (x :: r))) with
        | Some avg => Some (PyInt (max_list x r), PyFloat avg)
        | None => None
        end
    | [] => Some (PyInt 0, PyInt 0)
    end in
  let all_time_max :=
    match map connections (usage_stats s) with
    | x :: r => max_list x r
    | [] => 0
    end in
  match last_hour with
  | Some (peak, avg) =>
      {| Ledger.current_connections := PyInt current_connections;
         peak_last_hour := peak;
         avg_last_hour := avg;
         Ledger.all_time_max := PyInt all_time_max |}
  | None => zero_stats
  end.

(** [select('user_id', count='exact')]: the number of rows. *)
Definition get_unique_users_count (s : Store) : Z :=
  Z.of_nat (List.length (users s)).

End Supabase.

(* ================================================================== *)
(** * Requests of concurrent increments *)
(* ================================================================== *)

Module Interleave.
Import Ledger.

(** A call of [Supabase.increment_referral_count] is two requests to the
    service; other calls may be served between them. *)
Inductive call :=
| Called (rid : Z)
| Selected (rid : Z) (data : list Z)
| Returned.

Definition step (c : call) (s : Store) : call * Store :=
  match c with
  | Called rid => (Selected rid (Supabase.select_count rid s), s)
  | Selected rid data => (Returned, Supabase.write_back rid data s)
  | Returned => (Returned, s)
  end.

Fixpoint set_nth {A} (i : nat) (x : A) (l : list A) : list A :=
  match l, i with
  | [], _ => []
  | _ :: r, O => x :: r
  | y :: r, S j => y :: set_nth j x r
  end.

(** [run schedule calls s]: the service handles one request of the call
    named by each entry of the schedule, in that order. *)
Fixpoint run (schedule : list nat) (calls : list call) (s : Store)
  : list call * Store :=
  match schedule with
  | [] => (calls, s)
  | i :: rest =>
      match nth_error calls i with
      | Some c => let (c', s') := step c s in run rest (set_nth i c' calls) s'
      | None => run rest calls s
      end
  end.

(** The SQLite back end issues one statement per call. *)
Fixpoint run_atomic (n : nat) (rid : Z) (s : Store) : Store :=
  match n with
  | O => s
  | S k => run_atomic k rid (Sqlite.increment_referral_count rid s)
  end.

End Interleave.

(* ================================================================== *)
(** * [src/api/working_main.py]: the conversation engine *)
(* ================================================================== *)

Module Bot.
Import Ledger PyNum.

(** ** Conversation states

    [EXPECTING_NUMBER = 1] in the source; [END] is the framework's
    [ConversationHandler.END]. *)
Inductive ConvState := END | EXPECTING_NUMBER.

(** [ADMIN_USER_ID] and the bot's user name come from the environment. *)
Record Config := { ADMIN_USER_ID : Z; bot_username : string }.

Record User := { id : Z; first_name : string }.

(** ** Randomness

    [random.choice] is an index below the length of the sequence.  The
    source of the indices is an oracle; [used] counts the draws made. *)
Record Rng := { draw : nat -> nat; used : nat }.

Definition random_choice (seq : string) (g : Rng) : ascii * Rng :=
  let i := (draw g (used g) mod String.length seq)%nat in
  (match String.get i seq with Some c => c | None => Ascii.zero end,
   {| draw := draw g; used := S (used g) |}).

(** [string.ascii_letters + string.digits] *)
Definition characters : string :=
  "abcdefghijklmnopqrstuvwxyzABCDEFGHIJKLMNOPQRSTUVWXYZ0123456789".

(** [generate_random_string(length=15)] *)
Fixpoint generate_random_string (length : nat) (g : Rng) : string * Rng :=
  match length with
  | O => (EmptyString, g)
  | S n =>
      let (c, g1) := random_choice characters g in
      let (s, g2) := generate_random_string n g1 in
      (String c s, g2)
  end.

Definition is_alnum (c : ascii) : bool :=
  let n := nat_of_ascii c in
  (((48 <=? n) && (n <=? 57)) || ((65 <=? n) && (n <=? 90))
   || ((97 <=? n) && (n <=? 122)))%nat.

Fixpoint all_alnum (s : string) : bool :=
  match s with
  | String c s' => is_alnum c && all_alnum s'
  | EmptyString => true
  end.

(** ** What the handlers act on

    The log collects what the handlers and the storage calls they make
    write through [logger].  A line that ends with a value the model does
    not render (the text of an exception, the statistics dictionary) is
    recorded by its fixed part. *)

Inductive LogEntry :=
| LogInfo (message : string)
| LogWarning (message : string)
| LogError (message : string).

Record World := { db : Store; rng : Rng; log : list LogEntry }.

Definition with_db (w : World) (d : Store) : World :=
  {| db := d; rng := rng w; log := log w |}.
Definition with_rng (w : World) (g : Rng) : World :=
  {| db := db w; rng := g; log := log w |}.
Definition logging (w : World) (e : list LogEntry) : World :=
  {| db := db w; rng := rng w; log := (log w ++ e)%list |}.

(** ** Outbound messages

    Fixed texts are constructors; a text that depends on data carries the
    data, and the withdrawal texts are carried as rendered.  Sending is
    taken to succeed. *)
Inductive Reply :=
| Welcome
| WelcomeEdited
| AmountPrompt
| Affiliate (name : string) (uid ref_count : Z) (ref_link : string)
| Withdraw (message : string)
| Invoice (buyer : string) (amount : float) (price order_id : string)
| Attention
| TooLow
| NotANumber
| StatsReport (connections unique_users peak : Z) (avg : float) (all_time : Z)
| DatabaseError
| CommandError.

(** A handler returns the new world, what it sent, and the state it
    returns to the conversation handler ([None]: no change). *)
Definition Outcome : Type := World * list Reply * option ConvState.

(** ** [start]

    [add_new_user] writes one line to the log on every call: the success
    line when the row was inserted, the error line when the insert was
    refused.  [increment_referral_count] logs on failure only. *)
Definition add_new_user_log (uid : Z) (s : Store) : LogEntry :=
  if has_user uid s then LogError "Error adding new user"
  else LogInfo ("Added new user: " ++ str_of_int uid).

Definition start (now : instant) (user : User) (args : list string)
  (w : World) : Outcome :=
  let d1 := Supabase.add_new_user now (id user) (db w) in
  let d2 :=
    match args with
    | referrer_id :: _ =>
        match py_int referrer_id with
        | Some referrer_id =>
            if negb (referrer_id =? id user)
            then Supabase.increment_referral_count referrer_id d1
            else d1
        | None => d1
        end
    | [] => d1
    end in
  (logging (with_db w d2) [add_new_user_log (id user) (db w)],
   [Welcome], Some END).

(** ** [button_callback] *)
Fixpoint escape_dots (s : string) : string :=
  match s with
  | String c s' =>
      if Ascii.eqb c "." then String "\" (String "." (escape_dots s'))
      else String c (escape_dots s')
  | EmptyString => EmptyString
  end.

Definition withdrawal_available (token : string) : string :=
  "*✅ Withdrawal Available\!*" ++ nl ++ nl ++
  "Please contact admin " ++ nl ++
  "Reference: `WD\-" ++ token ++ "`".

Definition insufficient_referrals (remaining ref_count : Z) : string :=
  "*❌ Insufficient Referrals*" ++ nl ++ nl ++
  "You need `" ++ str_of_int remaining ++ "` more referrals to withdraw\." ++ nl ++
  "Current referrals: `" ++ str_of_int ref_count ++ "`/`100`".

Definition button_callback (cfg : Config) (user : User) (data : string)
  (w : World) : Outcome :=
  if String.eqb data "button1" then
    (w, [AmountPrompt], Some EXPECTING_NUMBER)
  else if String.eqb data "button2" then
    let ref_count := Supabase.get_referral_count (id user) (db w) in
    let ref_link :=
      "https://t.me/" ++ bot_username cfg ++ "?start=" ++ str_of_int (id user) in
    let ref_link := escape_dots ref_link in
    (w, [Affiliate (first_name user) (id user) ref_count ref_link], Some END)
  else if String.eqb data "withdraw" then
    let ref_count := Supabase.get_referral_count (id user) (db w) in
    if 100 <=? ref_count then
      let (token, g) := generate_random_string 8 (rng w) in
      (with_rng w g, [Withdraw (withdrawal_available token)], Some END)
    else
      let remaining := 100 - ref_count in
      (w, [Withdraw (insufficient_referrals remaining ref_count)], Some END)
  else if String.eqb data "home" then
    (w, [WelcomeEdited], Some END)
  else (w, [], None).

(** ** [process_number] *)

(** The literals [50] and [0.00255] as doubles. *)
Definition fifty : float := S754_finite false 7036874417766400 (-47).
Definition rate : float := S754_finite false 5879899673494920 (-61).

Definition process_number (user : User) (text : string) (w : World)
  : Outcome :=
  match py_float text with
  | Some number =>
      if float_ge number fifty then
        let result := float_mul number rate in
        let formatted_result := format_2f result in
        let (random_string, g) := generate_random_string 15 (rng w) in
        (with_rng w g,
         [Invoice (first_name user) number formatted_result random_string;
          Attention],
         Some EXPECTING_NUMBER)
      else (w, [TooLow], Some EXPECTING_NUMBER)
  | None => (w, [NotANumber], Some EXPECTING_NUMBER)
  end.

(** ** [stats] *)

(** [int(v)] and [float(v)] on a dictionary value; [None] stands for the
    exception raised ([TypeError], [ValueError] or [OverflowError]). *)
Definition int_of_pyval (v : pyval) : option Z :=
  match v with
  | PyInt z => Some z
  | PyFloat (S754_zero _) => Some 0
  | PyFloat (S754_finite s m e) =>
      let a := if 0 <=? e then Zpos m * 2 ^ e else Zpos m / 2 ^ (- e) in
      Some (if s then - a else a)
  | PyFloat _ => None
  | PyNone => None
  end.

Definition float_of_pyval (v : pyval) : option float :=
  match v with
  | PyInt z =>
      match float_of_int z with
      | S754_infinity _ => None
      | f => Some f
      end
  | PyFloat f => Some f
  | PyNone => None
  end.

Definition stats (cfg : Config) (now : instant) (user : User) (w : World)
  : Outcome :=
  if negb (id user =? ADMIN_USER_ID cfg) then
    (logging w [LogWarning ("Unauthorized stats access attempt by user "
                            ++ str_of_int (id user))],
     [], None)
  else
    let w1 := logging w [LogInfo ("Stats requested by admin "
                                  ++ str_of_int (id user))] in
    let stats_data := Supabase.get_usage_stats now (db w) in
    let unique_users := Supabase.get_unique_users_count (db w) in
    match int_of_pyval (current_connections stats_data),
          int_of_pyval (peak_last_hour stats_data),
          float_of_pyval (avg_last_hour stats_data),
          int_of_pyval (all_time_max stats_data) with
    | Some connections, Some peak, Some avg, Some all_time =>
        (logging w1 [LogInfo "Retrieved stats data";
                     LogInfo "Stats message sent successfully"],
         [StatsReport connections unique_users peak avg
            (Z.max (Z.max peak connections) all_time)],
         None)
    | _, _, _, _ =>
        (logging w1 [LogInfo "Retrieved stats data";
                     LogError "Database error in stats"],
         [DatabaseError], None)
    end.

(** ** The handler table of [main] and [src/api/index.py]

    Entry points: [/start] and any callback query.  In [EXPECTING_NUMBER]:
    a text that is not a command goes to [process_number], a callback query
    to [button_callback]; [/start] is the fallback.  [/stats] is registered
    next to the conversation handler.  An update no handler accepts is
    dropped. *)
Inductive Update :=
| Command (name : string) (args : list string)
| Callback (data : string)
| Text (text : string).

Definition next_state (st : ConvState) (r : option ConvState) : ConvState :=
  match r with Some st' => st' | None => st end.

Definition handle_update (cfg : Config) (now : instant) (user : User)
  (st : ConvState) (u : Update) (w : World) : World * list Reply * ConvState :=
  let settle (o : Outcome) :=
    let '(w', out, r) := o in (w', out, next_state st r) in
  match u with
  | Command name args =>
      if String.eqb name "start" then settle (start now user args w)
      else if String.eqb name "stats" then settle (stats cfg now user w)
      else (w, [], st)
  | Callback data => settle (button_callback cfg user data w)
  | Text text =>
      match st with
      | EXPECTING_NUMBER => settle (process_number user text w)
      | END => (w, [], st)
      end
  end.

(** The invoice a list of replies holds, if any. *)
Definition invoices (out : list Reply) : list Reply :=
  filter (fun r => match r with Invoice _ _ _ _ => true | _ => false end) out.

End Bot.

(* ================================================================== *)
(** * Sample data *)
(* ================================================================== *)

Module Sample.
Import Ledger Bot.

Definition cfg : Config := {| ADMIN_USER_ID := 42; bot_username := "StarShopBot" |}.
Definition alice : User := {| id := 7; first_name := "Alice" |}.
Definition admin : User := {| id := 42; first_name := "Root" |}.
Definition oracle : Rng := {| draw := fun n => (7 * n + 3)%nat; used := 0 |}.
Definition world : World := {| db := empty; rng := oracle; log := [] |}.

(** A ledger in which user 7 has been credited [c] referrals. *)
Definition credited (c : Z) : World :=
  {| db := {| users := []; referrals := [ {| referrer_id := 7; count := c |} ];
              usage_stats := [] |};
     rng := oracle; log := [] |}.

(** Three usage samples seen at [now = 3 h]: one three hours old, two
    recorded within the last half hour. *)
Definition now : instant := 3 * hour.
Definition samples : Store :=
  {| users := []; referrals := [];
     usage_stats := [ {| timestamp := 0; connections := 1 |};
                      {| timestamp := 3 * hour - 1800000000; connections := 1 |};
                      {| timestamp := 3 * hour - 60000000; connections := 1 |} ] |}.

End Sample.

(** ** Driving a store through its operations *)

Module Trace.
Import Ledger.

Inductive backend := SQLite | SupabaseService.

Inductive op :=
| AddNewUser (now : instant) (uid : Z)
| IncrementReferralCount (rid : Z)
| UpdateUsageStats (now : instant)
| CleanupOldStats (now : instant).

Definition apply (b : backend) (s : Store) (o : op) : Store :=
  match b, o with
  | SQLite, AddNewUser now uid => Sqlite.add_new_user now uid s
  | SQLite, IncrementReferralCount rid => Sqlite.increment_referral_count rid s
  | SQLite, UpdateUsageStats now => Sqlite.update_usage_stats now s
  | SQLite, CleanupOldStats now => Sqlite.cleanup_old_stats now s
  | SupabaseService, AddNewUser now uid => Supabase.add_new_user now uid s
  | SupabaseService, IncrementReferralCount rid =>
      Supabase.increment_referral_count rid s
  | SupabaseService, UpdateUsageStats now => Supabase.update_usage_stats now s
  | SupabaseService, CleanupOldStats now => Supabase.cleanup_old_stats now s
  end.

(** The store after [init_db] and a sequence of operations. *)
Definition after (b : backend) (ops : list op) : Store :=
  fold_left (apply b) ops empty.

(** The same call, as the two back ends see it.  The instant of
    [AddNewUser] is what the back end stores as [first_seen]: SQLite fills
    it with [CURRENT_TIMESTAMP], [src/api/database.py] sends
    [datetime.now().isoformat()], so the two values are unrelated.  The
    instants of the usage operations are [datetime.now()] in both files. *)
Definition same_call (o1 o2 : op) : Prop :=
  match o1, o2 with
  | AddNewUser _ u1, AddNewUser _ u2 => u1 = u2
  | IncrementReferralCount r1, IncrementReferralCount r2 => r1 = r2
  | UpdateUsageStats t1, UpdateUsageStats t2 => t1 = t2
  | CleanupOldStats t1, CleanupOldStats t2 => t1 = t2
  | _, _ => False
  end.

End Trace.

(** ** A conversation as a sequence of updates *)

Module Session.
Import Ledger Bot.

(** The updates of one user, each with the instant at which it is handled,
    go through the handler table in order; the conversation handler keeps
    the state from one update to the next. *)
Fixpoint run (cfg : Config) (user : User) (us : list (instant * Update))
  (st : ConvState) (w : World) : World * list Reply * ConvState :=
  match us with
  | [] => (w, [], st)
  | (now, u) :: rest =>
      let '(w1, out1, st1) := handle_update cfg now user st u w in
      let '(w2, out2, st2) := run cfg user rest st1 w1 in
      (w2, (out1 ++ out2)%list, st2)
  end.

(** A text made of blanks only (the empty text included). *)
Fixpoint blank (s : string) : bool :=
  match s with
  | String c s' => PyNum.is_space c && blank s'
  | EmptyString => true
  end.

End Session.

(* ================================================================== *)
(** * Properties *)
(* ================================================================== *)

Import Ledger PyNum Bot.

(** ** Random strings *)

Lemma get_all_alnum : forall s i c,
  all_alnum s = true -> String.get i s = Some c -> is_alnum c = true.
Proof.
  induction s as [|a s IH]; intros i c Hs Hg; simpl in *.
  - discriminate.
  - apply andb_true_iff in Hs as [Ha Hs].
    destruct i as [|i].
    + injection Hg as <-. exact Ha.
    + eapply IH; eauto.
Qed.

Lemma get_in_range : forall s i,
  (i < String.length s)%nat -> exists c, String.get i s = Some c.
Proof.
  induction s as [|a s IH]; intros i Hi; simpl in *.
  - lia.
  - destruct i as [|i]; [eauto|]. apply IH. lia.
Qed.

Lemma random_choice_alnum : forall g,
  is_alnum (fst (random_choice characters g)) = true.
Proof.
  intros g. unfold random_choice.
  set (i := (draw g (used g) mod String.length characters)%nat).
  assert (Hi : (i < String.length characters)%nat).
  { subst i. apply Nat.mod_upper_bound. discriminate. }
  destruct (get_in_range characters i Hi) as [c Hc].
  cbn [fst]. rewrite Hc.
  eapply get_all_alnum; [|exact Hc]. reflexivity.
Qed.

Lemma generate_random_string_spec : forall n g s g',
  generate_random_string n g = (s, g') ->
  String.length s = n /\ all_alnum s = true
  /\ used g' = (used g + n)%nat /\ draw g' = draw g.
Proof.
  induction n as [|n IH]; intros g s g' H; cbn [generate_random_string] in H.
  - injection H as <- <-. simpl. repeat split; lia.
  - pose proof (random_choice_alnum g) as Hc.
    destruct (random_choice characters g) as [c g1] eqn:E1.
    destruct (generate_random_string n g1) as [t g2] eqn:E2.
    injection H as <- <-.
    destruct (IH _ _ _ E2) as (Hl & Ha & Hu & Hd).
    assert (Hg1 : used g1 = S (used g) /\ draw g1 = draw g).
    { unfold random_choice in E1. injection E1 as _ <-. simpl. auto. }
    destruct Hg1 as [Hu1 Hd1].
    simpl in *. rewrite Hc, Ha, Hl, Hu, Hu1, Hd, Hd1.
    repeat split; lia.
Qed.

(** ** Referral counts in the Supabase back end *)

Lemma select_count_nil_iff : forall rid s,
  Supabase.select_count rid s = [] <-> has_referrer rid s = false.
Proof.
  intros rid s. unfold Supabase.select_count, has_referrer.
  induction (referrals s) as [|r l IH]; simpl.
  - tauto.
  - destruct (referrer_id r =? rid); simpl.
    + split; discriminate.
    + exact IH.
Qed.

Lemma select_count_update : forall rid v s c data,
  Supabase.select_count rid s = c :: data ->
  exists data', Supabase.select_count rid (Supabase.update_count rid v s) = v :: data'.
Proof.
  intros rid v s. unfold Supabase.select_count, Supabase.update_count. simpl.
  induction (referrals s) as [|r l IH]; simpl; intros c data H.
  - discriminate.
  - destruct (referrer_id r =? rid) eqn:E; simpl.
    + rewrite E. simpl. eauto.
    + rewrite E. eapply IH; eauto.
Qed.

Lemma select_count_app : forall rid s row,
  Supabase.select_count rid
    {| users := users s; referrals := (referrals s ++ [row])%list;
       usage_stats := usage_stats s |}
  = (Supabase.select_count rid s
     ++ (if referrer_id row =? rid then [count row] else []))%list.
Proof.
  intros. unfold Supabase.select_count. simpl.
  rewrite filter_app, map_app. simpl.
  destruct (referrer_id row =? rid); reflexivity.
Qed.

Lemma lost_update : forall rid s,
  Supabase.get_referral_count rid
    (Supabase.write_back rid (Supabase.select_count rid s)
       (Supabase.write_back rid (Supabase.select_count rid s) s))
  = Supabase.get_referral_count rid s + 1.
Proof.
  intros rid s. unfold Supabase.get_referral_count.
  destruct (Supabase.select_count rid s) as [|c data] eqn:E.
  - pose proof (proj1 (select_count_nil_iff rid s) E) as Hno.
    unfold Supabase.write_back at 2. unfold Supabase.insert_referral.
    cbn [referrer_id]. rewrite Hno.
    set (s1 := {| users := users s;
                  referrals := (referrals s ++ [ {| referrer_id := rid; count := 1 |} ])%list;
                  usage_stats := usage_stats s |}).
    assert (Hs1 : Supabase.select_count rid s1 = [1]).
    { subst s1. rewrite select_count_app, E. cbn [referrer_id count].
      rewrite Z.eqb_refl. reflexivity. }
    assert (Hhas : has_referrer rid s1 = true).
    { destruct (has_referrer rid s1) eqn:Eh; [reflexivity|].
      apply select_count_nil_iff in Eh. rewrite Hs1 in Eh. discriminate. }
    unfold Supabase.write_back, Supabase.insert_referral.
    cbn [referrer_id]. rewrite Hhas, Hs1. reflexivity.
  - cbn [Supabase.write_back].
    destruct (select_count_update rid (c + 1) s c data E) as [d1 H1].
    destruct (select_count_update rid (c + 1) _ _ _ H1) as [d2 H2].
    rewrite H2. reflexivity.
Qed.

(** C2: two calls of the Supabase [increment_referral_count] for one
    referrer, served select, select, write, write, both return and leave
    the stored count one above what it was, not two: from the empty table
    the count is 1 after 2 calls.  The increment is a read followed by a
    write, and the second write is computed from a stale read. *)
Theorem supabase_increment_loses_update :
  (let '(calls, s') :=
     Interleave.run [0; 1; 0; 1]%nat
       [Interleave.Called 7; Interleave.Called 7] Supabase.init_db in
   calls = [Interleave.Returned; Interleave.Returned]
   /\ Supabase.get_referral_count 7 s' = 1)
  /\ forall rid s,
       let '(calls, s') :=
         Interleave.run [0; 1; 0; 1]%nat
           [Interleave.Called rid; Interleave.Called rid] s in
       calls = [Interleave.Returned; Interleave.Returned]
       /\ Supabase.get_referral_count rid s'
          = Supabase.get_referral_count rid s + 1.
Proof.
  split.
  - vm_compute. split; reflexivity.
  - intros rid s. cbn [Interleave.run nth_error Interleave.step Interleave.set_nth].
    split; [reflexivity|]. apply lost_update.
Qed.

(** The SQLite back end counts every call: its increment is one statement. *)
Lemma sqlite_has_referrer_increment : forall rid s,
  has_referrer rid (Sqlite.increment_referral_count rid s) = true.
Proof.
  intros rid s. unfold Sqlite.increment_referral_count, has_referrer. simpl.
  destruct (existsb (fun r => referrer_id r =? rid) (referrals s)) eqn:E.
  - induction (referrals s) as [|r l IH]; simpl in *; [discriminate|].
    destruct (referrer_id r =? rid) eqn:Er; simpl.
    + rewrite Z.eqb_refl. reflexivity.
    + rewrite Er. simpl. apply IH. exact E.
  - rewrite existsb_app. simpl. rewrite Z.eqb_refl. apply orb_true_r.
Qed.

Lemma sqlite_increment_once : forall rid s,
  Sqlite.get_referral_count rid (Sqlite.increment_referral_count rid s)
  = Sqlite.get_referral_count rid s + 1.
Proof.
  intros rid s. unfold Sqlite.get_referral_count, Sqlite.increment_referral_count, has_referrer.
  simpl.
  destruct (existsb (fun r => referrer_id r =? rid) (referrals s)) eqn:E.
  - induction (referrals s) as [|r l IH]; simpl in *; [discriminate|].
    destruct (referrer_id r =? rid) eqn:Er; simpl.
    + rewrite Z.eqb_refl. reflexivity.
    + rewrite Er. apply IH. exact E.
  - rewrite filter_app. simpl. rewrite Z.eqb_refl.
    assert (Hf : filter (fun r => referrer_id r =? rid) (referrals s) = []).
    { induction (referrals s) as [|r l IH]; simpl in *; [reflexivity|].
      apply orb_false_iff in E as [E1 E2]. rewrite E1. auto. }
    rewrite Hf. reflexivity.
Qed.

Lemma sqlite_increment_counts_every_call : forall n rid s,
  Sqlite.get_referral_count rid (Interleave.run_atomic n rid s)
  = Sqlite.get_referral_count rid s + Z.of_nat n.
Proof.
  induction n as [|n IH]; intros rid s.
  - simpl. lia.
  - cbn [Interleave.run_atomic]. rewrite IH, sqlite_increment_once. lia.
Qed.

(** ** Binary64 rounding of the quote *)

Lemma digits2_size : forall p, digits2_pos p = Pos.size p.
Proof. induction p; cbn; congruence. Qed.

Lemma digits2_bounds : forall p,
  2 ^ (Z.pos (digits2_pos p) - 1) <= Z.pos p < 2 ^ Z.pos (digits2_pos p).
Proof.
  intros p. rewrite digits2_size.
  pose proof (Pos.size_gt p) as G. pose proof (Pos.size_le p) as L.
  apply Pos2Z.pos_lt_pos in G. apply Pos2Z.pos_le_pos in L.
  rewrite Pos2Z.inj_pow in G, L.
  change (Z.pos p~0) with (2 * Z.pos p) in L.
  replace (Z.pos (Pos.size p)) with (Z.pos (Pos.size p) - 1 + 1) in L at 1 by lia.
  rewrite Z.pow_add_r in L by lia. change (2 ^ 1) with 2 in L.
  lia.
Qed.

Lemma digits2_unique : forall p d,
  2 ^ (d - 1) <= Z.pos p < 2 ^ d -> Z.pos (digits2_pos p) = d.
Proof.
  intros p d [Hl Hu].
  destruct (digits2_bounds p) as [Bl Bu].
  set (D := Z.pos (digits2_pos p)) in *.
  assert (0 < d).
  { destruct (Z.ltb_spec 0 d); [assumption|].
    rewrite Z.pow_neg_r in Hl by lia.
    assert (2 ^ d <= 1); [|lia].
    destruct (Z.eq_dec d 0); [subst; cbn; lia|].
    rewrite Z.pow_neg_r by lia. lia. }
  assert (D - 1 < d).
  { apply (Z.pow_lt_mono_r_iff 2); lia. }
  assert (d - 1 < D).
  { apply (Z.pow_lt_mono_r_iff 2); lia. }
  lia.
Qed.

Lemma shr_1_m : forall mrs,
  0 <= shr_m mrs -> shr_m (shr_1 mrs) = shr_m mrs / 2.
Proof.
  intros [m r s] H. cbn [shr_m] in *. rewrite <- Z.div2_div.
  destruct m as [|[p|p|]|p]; try reflexivity. lia.
Qed.

Lemma pow2_xO : forall p, 2 ^ Z.pos p~0 = 2 ^ Z.pos p * 2 ^ Z.pos p.
Proof.
  intros p. rewrite <- Z.pow_add_r by lia. f_equal. lia.
Qed.

Lemma pow2_xI : forall p, 2 ^ Z.pos p~1 = 2 * (2 ^ Z.pos p * 2 ^ Z.pos p).
Proof.
  intros p. rewrite <- Z.pow_add_r by lia.
  rewrite <- (Z.pow_succ_r 2) by lia. f_equal. lia.
Qed.

Lemma iter_shr_1_m : forall p mrs,
  0 <= shr_m mrs ->
  shr_m (iter_pos shr_1 p mrs) = shr_m mrs / 2 ^ Z.pos p.
Proof.
  induction p as [p IH|p IH|]; intros mrs H; cbn [iter_pos].
  - assert (H1 : 0 <= shr_m (shr_1 mrs)).
    { rewrite shr_1_m by assumption. apply Z.div_pos; lia. }
    assert (H2 : 0 <= shr_m (iter_pos shr_1 p (shr_1 mrs))).
    { rewrite IH by assumption. apply Z.div_pos; [assumption|].
      apply Z.pow_pos_nonneg; lia. }
    rewrite IH, IH, shr_1_m by assumption.
    assert (P : 0 < 2 ^ Z.pos p) by (apply Z.pow_pos_nonneg; lia).
    rewrite !Z.div_div by lia.
    rewrite pow2_xI. reflexivity.
  - assert (H2 : 0 <= shr_m (iter_pos shr_1 p mrs)).
    { rewrite IH by assumption. apply Z.div_pos; [assumption|].
      apply Z.pow_pos_nonneg; lia. }
    rewrite IH, IH by assumption.
    assert (P : 0 < 2 ^ Z.pos p) by (apply Z.pow_pos_nonneg; lia).
    rewrite Z.div_div by lia.
    rewrite pow2_xO. reflexivity.
  - rewrite shr_1_m by assumption. reflexivity.
Qed.

Lemma round_nearest_even_range : forall m l,
  round_nearest_even m l = m \/ round_nearest_even m l = m + 1.
Proof.
  intros m [|[]]; cbn [round_nearest_even]; auto.
  destruct (Z.even m); auto.
Qed.

(** What [float_ge a fifty] says about a valid double [a]. *)
Lemma at_least_fifty_shape : forall a,
  valid_binary prec emax a = true ->
  is_finite a = true ->
  float_ge a fifty = true ->
  exists m e, a = S754_finite false m e
    /\ Z.pos (digits2_pos m) = 53 /\ -47 <= e <= 971.
Proof.
  intros a Hv Hf Hge.
  destruct a as [s|s| |s m e]; try discriminate.
  unfold float_ge, SFleb, fifty in Hge.
  set (m50 := 7036874417766400%positive) in Hge.
  unfold SFcompare in Hge.
  destruct s; [discriminate|].
  assert (He : -47 <= e).
  { destruct (Z.compare_spec (-47) e); try discriminate; lia. }
  cbn [valid_binary] in Hv. unfold bounded, canonical_mantissa in Hv.
  apply andb_true_iff in Hv as [Hc Hb].
  apply Z.eqb_eq in Hc. apply Z.leb_le in Hb.
  unfold fexp, emin, prec, emax in *.
  exists m, e. repeat split; lia.
Qed.

Lemma quote_is_finite : forall a,
  valid_binary prec emax a = true ->
  is_finite a = true ->
  float_ge a fifty = true ->
  exists m e, float_mul a rate = S754_finite false m e.
Proof.
  intros a Hv Hf Hge.
  destruct (at_least_fifty_shape a Hv Hf Hge) as (m & e & -> & Hd & He).
  unfold float_mul, rate, SFmul. cbn [xorb].
  set (mr := 5879899673494920%positive).
  pose proof (digits2_bounds m) as Bm. rewrite Hd in Bm.
  set (mx := (m * mr)%positive).
  assert (Bx : 2 ^ 104 <= Z.pos mx < 2 ^ 106).
  { subst mx mr. rewrite Pos2Z.inj_mul. lia. }
  pose proof (digits2_bounds mx) as Dx.
  set (d := Z.pos (digits2_pos mx)) in *.
  assert (Hdx : d = 105 \/ d = 106).
  { assert (d - 1 < 106) by (apply (Z.pow_lt_mono_r_iff 2); lia).
    assert (104 < d) by (apply (Z.pow_lt_mono_r_iff 2); lia).
    lia. }
  unfold binary_round_aux, shr_fexp.
  cbn [Zdigits2 shr_record_of_loc]. fold d.
  replace (fexp prec emax (d + (e + -61)) - (e + -61)) with (d - 53)
    by (unfold fexp, emin, prec, emax; lia).
  assert (Hshift : exists p, d - 53 = Z.pos p /\
            2 ^ 52 <= Z.pos mx / 2 ^ Z.pos p < 2 ^ 53).
  { destruct Hdx as [Hdx|Hdx]; rewrite Hdx in *.
    - exists 52%positive. split; [reflexivity|].
      change (105 - 1) with 104 in Dx. Z.div_mod_to_equations. lia.
    - exists 53%positive. split; [reflexivity|].
      change (106 - 1) with 105 in Dx. Z.div_mod_to_equations. lia. }
  destruct Hshift as (p & Hp & Bq). rewrite Hp. cbn [shr].
  set (mrs := iter_pos shr_1 p {| shr_m := Z.pos mx; shr_r := false; shr_s := false |}).
  assert (Hm1 : shr_m mrs = Z.pos mx / 2 ^ Z.pos p).
  { subst mrs. rewrite iter_shr_1_m; cbn [shr_m]; [reflexivity|lia]. }
  set (e1 := e + -61 + Z.pos p).
  set (m2 := round_nearest_even (shr_m mrs) (loc_of_shr_record mrs)).
  assert (Bm2 : 2 ^ 52 <= m2 <= 2 ^ 53).
  { subst m2. destruct (round_nearest_even_range (shr_m mrs) (loc_of_shr_record mrs)) as [R|R];
      rewrite R, Hm1; lia. }
  assert (He1 : -1074 <= e1 <= 970) by (subst e1; lia).
  destruct m2 as [|p2|p2] eqn:Em2; try lia.
  destruct (Z.eq_dec (Z.pos p2) (2 ^ 53)) as [Etop|Ntop].
  - assert (Ep2 : p2 = 9007199254740992%positive) by (injection Etop; auto).
    subst p2.
    cbn [Zdigits2 digits2_pos Pos.succ].
    replace (fexp prec emax (54 + e1) - e1) with 1
      by (unfold fexp, emin, prec, emax; lia).
    cbn [shr iter_pos shr_1 shr_m].
    replace (e1 + 1 <=? emax - prec) with true
      by (symmetry; apply Z.leb_le; unfold emax, prec; lia).
    eauto.
  - assert (D2 : Z.pos (digits2_pos p2) = 53).
    { apply digits2_unique. change (53 - 1) with 52. lia. }
    cbn [Zdigits2]. rewrite D2.
    replace (fexp prec emax (53 + e1) - e1) with 0
      by (unfold fexp, emin, prec, emax; lia).
    cbn [shr shr_m].
    replace (e1 <=? emax - prec) with true
      by (symmetry; apply Z.leb_le; unfold emax, prec; lia).
    eauto.
Qed.

(** ** Rendering and reading two-place decimals *)

Lemma is_digit_cases : forall c,
  is_digit c = true ->
  In c ["0"; "1"; "2"; "3"; "4"; "5"; "6"; "7"; "8"; "9"]%char.
Proof.
  intros c H.
  destruct c as [[] [] [] [] [] [] [] []]; vm_compute in H;
    try discriminate H; cbn; tauto.
Qed.

Ltac digit_cases H :=
  apply is_digit_cases in H; cbn [In] in H;
  repeat (destruct H as [H|H]; [subst|]); [..|contradiction].

Lemma digit_facts : forall c,
  is_digit c = true ->
  is_space c = false /\ to_lower c = c /\ is_underscore c = false
  /\ Ascii.eqb c "." = false /\ Ascii.eqb c "-" = false
  /\ Ascii.eqb c "+" = false.
Proof.
  intros c H. digit_cases H; vm_compute; repeat split; reflexivity.
Qed.

Lemma all_digits_app : forall a b,
  all_digits (a ++ b) = all_digits a && all_digits b.
Proof.
  induction a as [|c a IH]; intros b; cbn [append all_digits]; [reflexivity|].
  rewrite IH. apply andb_assoc.
Qed.

Lemma all_digits_string_of_uint : forall d,
  all_digits (NilEmpty.string_of_uint d) = true.
Proof.
  induction d; cbn [NilEmpty.string_of_uint all_digits]; try reflexivity;
    rewrite IHd; reflexivity.
Qed.

(** The text of a natural number starts with a digit. *)
Lemma str_of_N_shape : forall n,
  str_of_N n = NilEmpty.string_of_uint (N.to_uint n)
  /\ exists c t, str_of_N n = String c t /\ is_digit c = true
                 /\ all_digits t = true.
Proof.
  intros n. unfold str_of_N.
  assert (Hn : N.to_uint n <> Decimal.Nil).
  { destruct n as [|p]; cbn; [discriminate|apply Unsigned.to_uint_nonnil]. }
  pose proof (all_digits_string_of_uint (N.to_uint n)) as Hd.
  destruct (N.to_uint n) as [|d|d|d|d|d|d|d|d|d|d]; try contradiction;
    (split; [reflexivity|]);
    cbn [NilZero.string_of_uint NilEmpty.string_of_uint] in *;
    eexists; eexists; (split; [reflexivity|]);
    cbn [all_digits] in Hd; apply andb_true_iff in Hd; exact Hd.
Qed.

Lemma read_digits_boundary : forall rest,
  boundary rest -> read_digits rest = (Decimal.Nil, rest).
Proof.
  intros [|c t] H; cbn [read_digits]; [reflexivity|].
  destruct H as [H1 H2]. rewrite H1, H2. reflexivity.
Qed.

Lemma read_digits_string_of_uint : forall d rest,
  boundary rest ->
  read_digits (NilEmpty.string_of_uint d ++ rest) = (d, rest).
Proof.
  induction d; intros rest H;
    cbn [NilEmpty.string_of_uint append];
    [apply read_digits_boundary; exact H | ..];
    cbn [read_digits];
    match goal with
    | |- context [digit_of_ascii ?c] =>
        let v := eval vm_compute in (digit_of_ascii c) in
        change (digit_of_ascii c) with v
    end;
    cbv iota; rewrite (IHd rest H); reflexivity.
Qed.

(** Digits and points are untouched by [strip] and [lower]. *)
Lemma plain_char : forall c,
  is_digit c || Ascii.eqb c "." = true ->
  is_space c = false /\ to_lower c = c.
Proof.
  intros c H. apply orb_true_iff in H as [H|H].
  - destruct (digit_facts c H) as (? & ? & _). auto.
  - apply Ascii.eqb_eq in H. subst c. vm_compute. auto.
Qed.

Lemma plain_app : forall a b, plain (a ++ b) = plain a && plain b.
Proof.
  induction a as [|c a IH]; intros b; cbn [append plain]; [reflexivity|].
  rewrite IH. apply andb_assoc.
Qed.

Lemma all_digits_plain : forall s, all_digits s = true -> plain s = true.
Proof.
  induction s as [|c s IH]; cbn [all_digits plain]; intros H; [reflexivity|].
  apply andb_true_iff in H as [H1 H2]. rewrite H1, IH by assumption.
  reflexivity.
Qed.

Lemma strip_plain : forall s, plain s = true -> strip s = s.
Proof.
  intros s H. unfold strip.
  assert (L : lstrip s = s).
  { destruct s as [|c s]; [reflexivity|]. cbn [plain] in H.
    apply andb_true_iff in H as [H _].
    cbn [lstrip]. rewrite (proj1 (plain_char c H)). reflexivity. }
  rewrite L. clear L.
  induction s as [|c s IH]; [reflexivity|].
  cbn [plain] in H. apply andb_true_iff in H as [Hc Hs].
  cbn [rstrip]. rewrite (IH Hs).
  destruct s; [rewrite (proj1 (plain_char c Hc))|]; reflexivity.
Qed.

Lemma lower_plain : forall s, plain s = true -> lower s = s.
Proof.
  induction s as [|c s IH]; cbn [plain lower]; intros H; [reflexivity|].
  apply andb_true_iff in H as [Hc Hs].
  rewrite (proj2 (plain_char c Hc)), (IH Hs). reflexivity.
Qed.

Lemma split_point_digits : forall a b,
  all_digits a = true -> split_point (a ++ String "." b) = (a, Some b).
Proof.
  induction a as [|c a IH]; intros b H; cbn [append split_point].
  - reflexivity.
  - cbn [all_digits] in H. apply andb_true_iff in H as [Hc Ha].
    destruct (digit_facts c Hc) as (_ & _ & _ & Hp & _).
    rewrite Hp, (IH b Ha). reflexivity.
Qed.

(** The two fractional digits. *)
Lemma two_digits_shape : forall r,
  0 <= r < 100 ->
  exists c1 c2 f1 f2,
    two_digits r = String c1 (String c2 "")
    /\ is_digit c1 = true /\ is_digit c2 = true
    /\ digit_of_ascii c1 = Some f1 /\ digit_of_ascii c2 = Some f2
    /\ Decimal.nb_digits (f1 (f2 Decimal.Nil)) = 2%nat
    /\ N.of_uint (f1 (f2 Decimal.Nil)) = Z.to_N r.
Proof.
  intros r Hr. unfold two_digits.
  assert (Hr' : r = 10 * (r / 10) + r mod 10) by (apply Z.div_mod; lia).
  assert (Ha : 0 <= r / 10 < 10) by (Z.div_mod_to_equations; lia).
  assert (Hb : 0 <= r mod 10 < 10) by (apply Z.mod_pos_bound; lia).
  set (a := r / 10) in *. set (b := r mod 10) in *.
  rewrite Hr'. clearbody a b. clear Hr Hr'.
  assert (Ea : In a [0;1;2;3;4;5;6;7;8;9]) by (cbn; lia).
  assert (Eb : In b [0;1;2;3;4;5;6;7;8;9]) by (cbn; lia).
  cbn [In] in Ea, Eb.
  repeat (destruct Ea as [Ea|Ea]; [subst a|]); try contradiction;
  repeat (destruct Eb as [Eb|Eb]; [subst b|]); try contradiction;
  do 4 eexists; repeat split; reflexivity.
Qed.

Lemma hundredths_nonneg : forall m e, 0 <= hundredths m e.
Proof.
  intros m e. unfold hundredths.
  destruct (0 <=? e) eqn:E.
  - apply Z.leb_le in E.
    assert (0 < 2 ^ e) by (apply Z.pow_pos_nonneg; lia). nia.
  - apply Z.leb_gt in E.
    assert (P : 0 < 2 ^ (- e)) by (apply Z.pow_pos_nonneg; lia).
    assert (Q : 0 <= Z.pos m * 100 / 2 ^ (- e)) by (apply Z.div_pos; lia).
    destruct (2 * (Z.pos m * 100 mod 2 ^ (- e)) ?= 2 ^ (- e)); try lia.
    destruct (Z.even _); lia.
Qed.

(** The [.2f] rendering of a positive finite double: its shape. *)
Lemma format_2f_shape : forall m e,
  exists c t c1 c2 f1 f2,
    let h := hundredths m e in
    format_2f (S754_finite false m e)
    = NilEmpty.string_of_uint (N.to_uint (Z.to_N (h / 100)))
      ++ String "." (String c1 (String c2 ""))
    /\ NilEmpty.string_of_uint (N.to_uint (Z.to_N (h / 100))) = String c t
    /\ is_digit c = true /\ all_digits t = true
    /\ is_digit c1 = true /\ is_digit c2 = true
    /\ digit_of_ascii c1 = Some f1 /\ digit_of_ascii c2 = Some f2
    /\ Decimal.nb_digits (f1 (f2 Decimal.Nil)) = 2%nat
    /\ N.of_uint (f1 (f2 Decimal.Nil)) = Z.to_N (h mod 100).
Proof.
  intros m e.
  pose proof (hundredths_nonneg m e) as Hh.
  set (h := hundredths m e) in *.
  destruct (str_of_N_shape (Z.to_N (h / 100))) as (E1 & c & t & E2 & Hc & Ht).
  destruct (two_digits_shape (h mod 100)) as (c1 & c2 & f1 & f2 & E3 & R).
  { apply Z.mod_pos_bound. lia. }
  exists c, t, c1, c2, f1, f2. cbv zeta.
  split.
  - unfold format_2f. fold h. cbn [sign_str append]. rewrite E1, E3.
    reflexivity.
  - rewrite <- E1. split; [exact E2|]. tauto.
Qed.

Lemma format_2f_two_fraction_digits : forall m e,
  two_fraction_digits (format_2f (S754_finite false m e)) = true.
Proof.
  intros m e.
  destruct (format_2f_shape m e)
    as (c & t & c1 & c2 & f1 & f2 & E & Ec & Hc & Ht & H1 & H2 & _).
  cbv zeta in E. rewrite E, Ec. unfold two_fraction_digits.
  cbn [append].
  destruct (digit_facts c Hc) as (_ & _ & _ & _ & Hm & _). rewrite Hm.
  change (String c (t ++ String "." (String c1 (String c2 ""))))
    with (String c t ++ String "." (String c1 (String c2 ""))).
  rewrite split_point_digits
    by (cbn [all_digits]; rewrite Hc, Ht; reflexivity).
  cbn [String.eqb negb all_digits String.length]. rewrite Hc, Ht, H1, H2.
  reflexivity.
Qed.

Lemma py_float_format_2f : forall m e,
  py_float (format_2f (S754_finite false m e))
  = Some (py_round2 (S754_finite false m e)).
Proof.
  intros m e.
  pose proof (hundredths_nonneg m e) as Hh.
  destruct (format_2f_shape m e)
    as (c & t & c1 & c2 & f1 & f2 & E & Ec & Hc & Ht & H1 & H2 & D1 & D2 & Hn & Hv).
  cbv zeta in E, Hv. cbn [py_round2].
  set (h := hundredths m e) in *.
  set (ip := N.to_uint (Z.to_N (h / 100))) in *.
  set (X := format_2f (S754_finite false m e)) in *.
  assert (HX : X = String c (t ++ String "." (String c1 (String c2 "")))).
  { rewrite E, Ec. reflexivity. }
  assert (Hplain : plain X = true).
  { rewrite E, plain_app. cbn [plain].
    rewrite all_digits_plain by apply all_digits_string_of_uint.
    rewrite H1, H2. reflexivity. }
  destruct (digit_facts c Hc) as (_ & _ & _ & Hdot & Hminus & Hplus).
  unfold py_float. rewrite (strip_plain X Hplain).
  assert (Hsign : read_sign X = (false, X)).
  { rewrite HX. cbn [read_sign]. rewrite Hminus, Hplus. reflexivity. }
  rewrite Hsign, (lower_plain X Hplain).
  assert (Hw : String.eqb X "inf" = false /\ String.eqb X "infinity" = false
               /\ String.eqb X "nan" = false).
  { rewrite HX. clear - Hc. digit_cases Hc; repeat split; reflexivity. }
  destruct Hw as (W1 & W2 & W3). rewrite W1, W2, W3. cbn [orb].
  assert (Hnum : read_number X
                 = Some (Z.to_N h, -2, EmptyString)).
  { assert (Hrd : read_digits X = (ip, String "." (String c1 (String c2 "")))).
    { rewrite E. apply read_digits_string_of_uint.
      cbn [boundary]. split; reflexivity. }
    assert (Hrd2 : read_digitpart (String c1 (String c2 ""))
                   = Some (f1 (f2 Decimal.Nil), EmptyString)).
    { unfold read_digitpart. rewrite H1. cbn [read_digits].
      rewrite D1, D2. reflexivity. }
    unfold read_number. rewrite HX at 1. rewrite Hdot.
    unfold read_digitpart. rewrite HX at 1. rewrite Hc, Hrd.
    cbn [read_fraction].
    change (Ascii.eqb "." ".") with true. cbv iota.
    rewrite Hrd2, Hn, Hv.
    subst ip. rewrite DecimalN.Unsigned.of_to.
    repeat f_equal.
    change (N.of_nat 2) with 2%N. change (10 ^ 2)%N with 100%N.
    apply N2Z.inj. rewrite N2Z.inj_add, N2Z.inj_mul, !Z2N.id.
    - change (Z.of_N 100) with 100.
      pose proof (Z.div_mod h 100 ltac:(lia)). lia.
    - lia.
    - apply Z.mod_pos_bound. lia.
    - apply Z.div_pos; lia. }
  rewrite Hnum. cbn [read_exponent]. reflexivity.
Qed.



(** The literal [0.00255] of the source is the double [rate], and [50]
    the double [fifty]. *)
Lemma rate_literal :
  py_float "0.00255" = Some rate /\ float_of_int 50 = fifty.
Proof. split; vm_compute; reflexivity. Qed.

Lemma float_lt_not_ge_fifty : forall a,
  float_lt a fifty = true -> float_ge a fifty = false.
Proof.
  intros a. unfold float_lt, float_ge, SFltb, SFleb, fifty.
  set (m50 := 7036874417766400%positive).
  destruct a as [s|s| |s m e]; try (destruct s); unfold SFcompare;
    try discriminate; try reflexivity.
  rewrite (Z.compare_antisym e (-47)).
  destruct (e ?= -47) eqn:E; cbn [CompOpp]; try discriminate; try reflexivity.
  pose proof (Pos.compare_cont_antisym m50 m Eq) as A. cbn [CompOpp] in A.
  rewrite <- A.
  destruct (Pos.compare_cont Eq m50 m); cbn [CompOpp];
    try discriminate; reflexivity.
Qed.

(** C5: a text that [float] rejects, or that parses to a value below 50,
    is answered by the matching error message alone; the conversation stays
    in [EXPECTING_NUMBER], and the world (the random source with it) is
    untouched, so no order id was drawn and no invoice sent. *)
Theorem amount_entry_rejects_invalid_input :
  forall cfg now user text w,
    (py_float text = None
     \/ exists a, py_float text = Some a /\ float_lt a fifty = true) ->
    exists msg,
      msg = match py_float text with None => NotANumber | Some _ => TooLow end
      /\ handle_update cfg now user EXPECTING_NUMBER (Text text) w
         = (w, [msg], EXPECTING_NUMBER)
      /\ invoices [msg] = [].
Proof.
  intros cfg now user text w H.
  unfold handle_update, process_number.
  destruct H as [H | (a & H & Hlt)]; rewrite H.
  - eexists; repeat split.
  - rewrite (float_lt_not_ge_fifty a Hlt). eexists; repeat split.
Qed.

Lemma amount_entry_rejects_invalid_input_witness :
  exists msg,
    msg = match py_float "49.99" with None => NotANumber | Some _ => TooLow end
    /\ handle_update Sample.cfg 0 Sample.alice EXPECTING_NUMBER (Text "49.99")
         Sample.world
       = (Sample.world, [msg], EXPECTING_NUMBER)
    /\ invoices [msg] = [].
Proof.
  apply (amount_entry_rejects_invalid_input
           Sample.cfg 0 Sample.alice "49.99" Sample.world).
  right. exists (S754_finite false 7035467042882847 (-47)).
  split; vm_compute; reflexivity.
Defined.

(** C3, as the code has it: a text that parses to a value of at least 50
    is answered by the invoice, which carries the price and an order id of
    15 alphanumeric characters drawn from the random source, followed by
    the cautionary message; the handler returns [EXPECTING_NUMBER], so the
    conversation stays in the amount-entry state. *)
Theorem quote_keeps_amount_entry_state :
  forall cfg now user text w a,
    py_float text = Some a ->
    float_ge a fifty = true ->
    exists order_id g,
      generate_random_string 15 (rng w) = (order_id, g)
      /\ String.length order_id = 15%nat
      /\ all_alnum order_id = true
      /\ handle_update cfg now user EXPECTING_NUMBER (Text text) w
         = (with_rng w g,
            [Invoice (first_name user) a (format_2f (float_mul a rate)) order_id;
             Attention],
            EXPECTING_NUMBER).
Proof.
  intros cfg now user text w a Hp Hge.
  unfold handle_update, process_number. rewrite Hp, Hge.
  destruct (generate_random_string 15 (rng w)) as [order_id g] eqn:E.
  destruct (generate_random_string_spec _ _ _ _ E) as (Hl & Ha & _).
  exists order_id, g. repeat split; assumption.
Qed.

Lemma quote_keeps_amount_entry_state_witness :
  exists order_id g,
    generate_random_string 15 (rng Sample.world) = (order_id, g)
    /\ String.length order_id = 15%nat
    /\ all_alnum order_id = true
    /\ handle_update Sample.cfg 0 Sample.alice EXPECTING_NUMBER (Text "100")
         Sample.world
       = (with_rng Sample.world g,
          [Invoice (first_name Sample.alice)
             (S754_finite false 7036874417766400 (-46))
             (format_2f (float_mul (S754_finite false 7036874417766400 (-46)) rate))
             order_id;
           Attention],
          EXPECTING_NUMBER).
Proof.
  apply (quote_keeps_amount_entry_state Sample.cfg 0 Sample.alice "100"
           Sample.world (S754_finite false 7036874417766400 (-46)));
    vm_compute; reflexivity.
Defined.

(** C3 as stated fails: after the quote for the text [100] the
    conversation is still in [EXPECTING_NUMBER], not in the terminal state. *)
Lemma quote_state_is_not_terminal :
  py_float "100" = Some (S754_finite false 7036874417766400 (-46))
  /\ float_ge (S754_finite false 7036874417766400 (-46)) fifty = true
  /\ snd (handle_update Sample.cfg 0 Sample.alice EXPECTING_NUMBER (Text "100")
            Sample.world) = EXPECTING_NUMBER
  /\ snd (handle_update Sample.cfg 0 Sample.alice EXPECTING_NUMBER (Text "100")
            Sample.world) <> END.
Proof.
  repeat split; try (vm_compute; reflexivity).
  vm_compute. discriminate.
Qed.

(** ** [start] and referrals *)

(** C6: when the referral argument of [/start] reads as the caller's own
    identifier, the [referrals] table is left exactly as it was. *)
Theorem self_referral_is_ignored :
  forall now user arg rest w,
    py_int arg = Some (id user) ->
    referrals (db (fst (fst (start now user (arg :: rest) w)))) = referrals (db w).
Proof.
  intros now user arg rest w H.
  unfold start. rewrite H, Z.eqb_refl. cbn.
  unfold Supabase.add_new_user, Supabase.insert_user.
  destruct (has_user _ _); reflexivity.
Qed.

Lemma self_referral_is_ignored_witness :
  referrals (db (fst (fst (start 0 Sample.alice ["7"] (Sample.credited 5)))))
  = referrals (db (Sample.credited 5)).
Proof.
  apply (self_referral_is_ignored 0 Sample.alice "7" [] (Sample.credited 5)).
  vm_compute. reflexivity.
Defined.

(** For comparison: another user's identifier is credited. *)
Lemma other_referral_is_counted :
  Supabase.get_referral_count 7
    (db (fst (fst (start 0 Sample.admin ["7"] (Sample.credited 5))))) = 6.
Proof. vm_compute. reflexivity. Qed.

(** ** Reading back a rendered integer *)

Lemma append_empty : forall s : string, s ++ "" = s.
Proof.
  induction s as [|c s IH]; cbn [append]; [reflexivity|].
  rewrite IH. reflexivity.
Qed.

Lemma read_digitpart_str_of_N : forall n,
  read_digitpart (str_of_N n) = Some (N.to_uint n, EmptyString).
Proof.
  intros n.
  destruct (str_of_N_shape n) as (E & c & t & Ec & Hc & Ht).
  unfold read_digitpart. rewrite Ec at 1. rewrite Hc.
  rewrite E. rewrite <- (append_empty (NilEmpty.string_of_uint _)).
  rewrite read_digits_string_of_uint by exact I. reflexivity.
Qed.

Lemma py_int_str_of_N : forall n, py_int (str_of_N n) = Some (Z.of_N n).
Proof.
  intros n.
  destruct (str_of_N_shape n) as (E & c & t & Ec & Hc & Ht).
  assert (Hplain : plain (str_of_N n) = true).
  { apply all_digits_plain. rewrite E. apply all_digits_string_of_uint. }
  destruct (digit_facts c Hc) as (_ & _ & _ & _ & Hminus & Hplus).
  unfold py_int. rewrite (strip_plain _ Hplain).
  assert (Hsign : read_sign (str_of_N n) = (false, str_of_N n)).
  { rewrite Ec. cbn [read_sign]. rewrite Hminus, Hplus. reflexivity. }
  rewrite Hsign, read_digitpart_str_of_N, DecimalN.Unsigned.of_to.
  reflexivity.
Qed.

Lemma py_int_str_of_int : forall z, py_int (str_of_int z) = Some z.
Proof.
  intros [|p|p].
  - reflexivity.
  - change (str_of_int (Z.pos p)) with (str_of_N (N.pos p)).
    apply py_int_str_of_N.
  - cbn [str_of_int].
    destruct (str_of_N_shape (N.pos p)) as (E & c & t & Ec & Hc & Ht).
    assert (Hplain : plain (str_of_N (N.pos p)) = true).
    { apply all_digits_plain. rewrite E. apply all_digits_string_of_uint. }
    destruct (digit_facts c Hc) as (Hsp & _).
    assert (Hr : rstrip (str_of_N (N.pos p)) = str_of_N (N.pos p)).
    { pose proof (strip_plain _ Hplain) as S. unfold strip in S.
      rewrite Ec in S at 1. cbn [lstrip] in S. rewrite Hsp in S.
      rewrite <- Ec in S. exact S. }
    assert (Hs : strip ("-" ++ str_of_N (N.pos p))
                 = String "-" (str_of_N (N.pos p))).
    { unfold strip. cbn [append lstrip].
      change (is_space "-") with false. cbv iota.
      cbn [rstrip]. rewrite Hr, Ec. reflexivity. }
    unfold py_int. rewrite Hs. cbn [read_sign].
    change (Ascii.eqb "-" "-") with true. cbv iota.
    rewrite read_digitpart_str_of_N, DecimalN.Unsigned.of_to.
    reflexivity.
Qed.

(** ** Withdrawal *)

(** C7: on [withdraw], a caller with at least 100 referrals gets the
    confirmation text, which ends with the reference [WD\-] followed by a
    token of 8 alphanumeric characters drawn for this message; any other
    caller gets the text that shows [100 - count] as the number of
    referrals still needed, next to the count itself, both as decimal
    numbers that read back as those values; with 99 referrals the text
    asks for [1] more. *)
Theorem withdraw_selection :
  forall cfg user w,
    let c := Supabase.get_referral_count (id user) (db w) in
    (100 <= c ->
     exists token g,
       generate_random_string 8 (rng w) = (token, g)
       /\ String.length token = 8%nat
       /\ all_alnum token = true
       /\ used g = (used (rng w) + 8)%nat
       /\ button_callback cfg user "withdraw" w
          = (with_rng w g,
             [Withdraw ("*✅ Withdrawal Available\!*" ++ nl ++ nl ++
                        "Please contact admin " ++ nl ++
                        "Reference: `WD\-" ++ token ++ "`")],
             Some END))
    /\ (c < 100 ->
        button_callback cfg user "withdraw" w
        = (w,
           [Withdraw ("*❌ Insufficient Referrals*" ++ nl ++ nl ++
                      "You need `" ++ str_of_int (100 - c)
                      ++ "` more referrals to withdraw\." ++ nl ++
                      "Current referrals: `" ++ str_of_int c ++ "`/`100`")],
           Some END)
        /\ py_int (str_of_int (100 - c)) = Some (100 - c)
        /\ py_int (str_of_int c) = Some c)
    /\ (c = 99 ->
        button_callback cfg user "withdraw" w
        = (w,
           [Withdraw ("*❌ Insufficient Referrals*" ++ nl ++ nl ++
                      "You need `1` more referrals to withdraw\." ++ nl ++
                      "Current referrals: `99`/`100`")],
           Some END)).
Proof.
  intros cfg user w c. split; [|split].
  - intros Hc. unfold button_callback. cbn [String.eqb Ascii.eqb Bool.eqb].
    fold c. apply Z.leb_le in Hc. rewrite Hc.
    destruct (generate_random_string 8 (rng w)) as [token g] eqn:E.
    destruct (generate_random_string_spec _ _ _ _ E) as (Hl & Ha & Hu & _).
    exists token, g. repeat split; assumption.
  - intros Hc. split; [|split; apply py_int_str_of_int].
    unfold button_callback. cbn [String.eqb Ascii.eqb Bool.eqb].
    fold c. apply Z.leb_gt in Hc. rewrite Hc. reflexivity.
  - intros Hc. unfold button_callback. cbn [String.eqb Ascii.eqb Bool.eqb].
    fold c. rewrite Hc. reflexivity.
Qed.

Lemma withdraw_selection_witness :
  (button_callback Sample.cfg Sample.alice "withdraw" (Sample.credited 42)
   = (Sample.credited 42,
      [Withdraw ("*❌ Insufficient Referrals*" ++ nl ++ nl ++
                 "You need `" ++ str_of_int (100 - 42)
                 ++ "` more referrals to withdraw\." ++ nl ++
                 "Current referrals: `" ++ str_of_int 42 ++ "`/`100`")],
      Some END)
   /\ py_int (str_of_int (100 - 42)) = Some (100 - 42)
   /\ py_int (str_of_int 42) = Some 42)
  /\ (exists token g,
        generate_random_string 8 (rng (Sample.credited 100)) = (token, g)
        /\ String.length token = 8%nat
        /\ all_alnum token = true
        /\ used g = (used (rng (Sample.credited 100)) + 8)%nat
        /\ button_callback Sample.cfg Sample.alice "withdraw"
             (Sample.credited 100)
           = (with_rng (Sample.credited 100) g,
              [Withdraw ("*✅ Withdrawal Available\!*" ++ nl ++ nl ++
                         "Please contact admin " ++ nl ++
                         "Reference: `WD\-" ++ token ++ "`")],
              Some END))
  /\ button_callback Sample.cfg Sample.alice "withdraw" (Sample.credited 99)
     = (Sample.credited 99,
        [Withdraw ("*❌ Insufficient Referrals*" ++ nl ++ nl ++
                   "You need `1` more referrals to withdraw\." ++ nl ++
                   "Current referrals: `99`/`100`")],
        Some END).
Proof.
  split; [|split].
  - apply (proj1 (proj2 (withdraw_selection Sample.cfg Sample.alice
                           (Sample.credited 42)))).
    vm_compute. reflexivity.
  - apply (proj1 (withdraw_selection Sample.cfg Sample.alice
                    (Sample.credited 100))).
    vm_compute. discriminate.
  - apply (proj2 (proj2 (withdraw_selection Sample.cfg Sample.alice
                           (Sample.credited 99)))).
    vm_compute. reflexivity.
Defined.

(** ** The admin report *)

(** C8: [/stats] from a caller other than [ADMIN_USER_ID] sends nothing,
    changes neither the ledger nor the conversation state, and appends one
    warning to the log; a statistics report among the replies implies that
    the caller is the admin. *)
Theorem stats_is_admin_only :
  forall cfg now user st args w,
    (id user <> ADMIN_USER_ID cfg ->
     exists line,
       handle_update cfg now user st (Command "stats" args) w
       = (logging w [LogWarning line], [], st))
    /\ (forall n u p a t,
          In (StatsReport n u p a t)
             (snd (fst (handle_update cfg now user st (Command "stats" args) w))) ->
          id user = ADMIN_USER_ID cfg).
Proof.
  intros cfg now user st args w.
  unfold handle_update. cbn [String.eqb Ascii.eqb Bool.eqb]. unfold stats.
  destruct (id user =? ADMIN_USER_ID cfg) eqn:E; cbn [negb].
  - apply Z.eqb_eq in E. split; [intros H; contradiction | intros; exact E].
  - apply Z.eqb_neq in E. split.
    + intros _. eexists. reflexivity.
    + intros n u p a t H. cbn in H. contradiction.
Qed.

Lemma stats_is_admin_only_witness :
  exists line,
    handle_update Sample.cfg 0 Sample.alice END (Command "stats" []) Sample.world
    = (logging Sample.world [LogWarning line], [], END).
Proof.
  apply (proj1 (stats_is_admin_only Sample.cfg 0 Sample.alice END []
                  Sample.world)).
  vm_compute. discriminate.
Defined.

(** ** Users *)

Lemma supabase_add_new_user_eq : forall now uid s,
  Supabase.add_new_user now uid s = Sqlite.add_new_user now uid s.
Proof.
  intros. unfold Supabase.add_new_user, Supabase.insert_user, Sqlite.add_new_user.
  cbn [user_id]. destruct (has_user uid s); reflexivity.
Qed.

Lemma has_user_after_add : forall now uid s,
  has_user uid (Sqlite.add_new_user now uid s) = true.
Proof.
  intros. unfold Sqlite.add_new_user.
  destruct (has_user uid s) eqn:E; [exact E|].
  unfold has_user. cbn [users]. rewrite existsb_app. cbn.
  rewrite Z.eqb_refl. apply orb_true_r.
Qed.

Lemma filter_absent : forall uid (l : list UserRow),
  existsb (fun r => user_id r =? uid) l = false ->
  filter (fun r => user_id r =? uid) l = [].
Proof.
  induction l as [|r l IH]; cbn; intros H; [reflexivity|].
  apply orb_false_iff in H as [H1 H2]. rewrite H1. auto.
Qed.

Lemma absent_not_in : forall uid (l : list UserRow),
  existsb (fun r => user_id r =? uid) l = false -> ~ In uid (map user_id l).
Proof.
  induction l as [|r l IH]; cbn; intros H; [tauto|].
  apply orb_false_iff in H as [H1 H2]. apply Z.eqb_neq in H1.
  intros [Hin|Hin]; [contradiction | exact (IH H2 Hin)].
Qed.

Lemma one_record_when_present : forall uid (l : list UserRow),
  NoDup (map user_id l) ->
  existsb (fun r => user_id r =? uid) l = true ->
  List.length (filter (fun r => user_id r =? uid) l) = 1%nat.
Proof.
  induction l as [|r l IH]; cbn; intros Hnd H; [discriminate|].
  inversion Hnd as [|x xs Hnotin Hnd']; subst.
  destruct (user_id r =? uid) eqn:E.
  - apply Z.eqb_eq in E. subst uid.
    destruct (existsb (fun r0 => user_id r0 =? user_id r) l) eqn:Ex.
    + exfalso. apply Hnotin.
      apply existsb_exists in Ex as (r0 & Hin & Heq).
      apply Z.eqb_eq in Heq. rewrite <- Heq. apply in_map. exact Hin.
    + rewrite (filter_absent _ _ Ex). reflexivity.
  - apply IH; assumption.
Qed.

Lemma add_new_user_keeps_key : forall now uid s,
  NoDup (map user_id (users s)) ->
  NoDup (map user_id (users (Sqlite.add_new_user now uid s))).
Proof.
  intros now uid s H. unfold Sqlite.add_new_user.
  destruct (has_user uid s) eqn:E; [exact H|].
  cbn [users]. rewrite map_app. cbn.
  apply NoDup_app; [exact H | repeat constructor; intros [] |].
  intros x Hx [Hin|[]]. subst x.
  exact (absent_not_in uid _ E Hx).
Qed.

(** C9: under the primary key of [users], adding the same identifier a
    second time changes nothing, in either back end, and the table then
    holds exactly one row for it. *)
Theorem add_new_user_is_idempotent :
  forall t1 t2 uid s,
    NoDup (map user_id (users s)) ->
    (Sqlite.add_new_user t2 uid (Sqlite.add_new_user t1 uid s)
     = Sqlite.add_new_user t1 uid s
     /\ user_records uid
          (Sqlite.add_new_user t2 uid (Sqlite.add_new_user t1 uid s)) = 1%nat)
    /\ (Supabase.add_new_user t2 uid (Supabase.add_new_user t1 uid s)
        = Supabase.add_new_user t1 uid s
        /\ user_records uid
             (Supabase.add_new_user t2 uid (Supabase.add_new_user t1 uid s))
           = 1%nat).
Proof.
  intros t1 t2 uid s Hnd.
  assert (Hsq : Sqlite.add_new_user t2 uid (Sqlite.add_new_user t1 uid s)
                = Sqlite.add_new_user t1 uid s).
  { unfold Sqlite.add_new_user at 1. rewrite has_user_after_add. reflexivity. }
  assert (Hone : user_records uid (Sqlite.add_new_user t1 uid s) = 1%nat).
  { unfold user_records. apply one_record_when_present.
    - apply add_new_user_keeps_key. exact Hnd.
    - apply has_user_after_add. }
  rewrite !supabase_add_new_user_eq, Hsq. auto.
Qed.

Lemma add_new_user_is_idempotent_witness :
  (Sqlite.add_new_user 2 7 (Sqlite.add_new_user 1 7 empty)
   = Sqlite.add_new_user 1 7 empty
   /\ user_records 7 (Sqlite.add_new_user 2 7 (Sqlite.add_new_user 1 7 empty))
      = 1%nat)
  /\ (Supabase.add_new_user 2 7 (Supabase.add_new_user 1 7 empty)
      = Supabase.add_new_user 1 7 empty
      /\ user_records 7
           (Supabase.add_new_user 2 7 (Supabase.add_new_user 1 7 empty))
         = 1%nat).
Proof.
  apply (add_new_user_is_idempotent 1 2 7 empty).
  simpl. constructor.
Defined.

Lemma supabase_increment_users : forall rid s,
  users (Supabase.increment_referral_count rid s) = users s.
Proof.
  intros. unfold Supabase.increment_referral_count, Supabase.write_back,
    Supabase.insert_referral, Supabase.update_count.
  destruct (Supabase.select_count rid s); [|reflexivity].
  destruct (has_referrer _ s); reflexivity.
Qed.

(** The key holds in every store the operations can produce. *)
Lemma users_key_after : forall b ops s,
  NoDup (map user_id (users s)) ->
  NoDup (map user_id (users (fold_left (Trace.apply b) ops s))).
Proof.
  intros b ops. induction ops as [|o ops IH]; intros s H; [exact H|].
  cbn [fold_left]. apply IH.
  destruct b, o; cbn [Trace.apply];
    try rewrite supabase_add_new_user_eq;
    try rewrite supabase_increment_users;
    try (apply add_new_user_keeps_key; exact H); exact H.
Qed.

(** ** Usage samples *)

Lemma only_ones_filter : forall f l, only_ones l -> only_ones (filter f l).
Proof.
  intros f l H. unfold only_ones in *. rewrite Forall_forall in *.
  intros r Hr. apply filter_In in Hr as [Hr _]. auto.
Qed.

Lemma apply_keeps_ones : forall b s o,
  only_ones (usage_stats s) -> only_ones (usage_stats (Trace.apply b s o)).
Proof.
  intros b s o H.
  destruct b, o; cbn [Trace.apply];
    try rewrite supabase_add_new_user_eq;
    unfold Sqlite.add_new_user, Sqlite.increment_referral_count,
      Sqlite.update_usage_stats, Sqlite.cleanup_old_stats,
      Supabase.increment_referral_count, Supabase.write_back,
      Supabase.update_count, Supabase.insert_referral,
      Supabase.update_usage_stats, Supabase.cleanup_old_stats;
    repeat match goal with
           | |- context [if ?c then _ else _] => destruct c
           | |- context [match ?l with [] => _ | _ :: _ => _ end] => destruct l
           end;
    cbn [usage_stats]; try exact H;
    try (apply only_ones_filter; exact H);
    try (apply Forall_app; split; [exact H | repeat constructor]).
Qed.

Lemma after_only_ones : forall b ops,
  only_ones (usage_stats (Trace.after b ops)).
Proof.
  intros b ops. unfold Trace.after.
  assert (G : forall s, only_ones (usage_stats s) ->
                        only_ones (usage_stats (fold_left (Trace.apply b) ops s))).
  { induction ops as [|o ops IH]; intros s H; [exact H|].
    cbn [fold_left]. apply IH. apply apply_keeps_ones. exact H. }
  apply G. constructor.
Qed.

Lemma max_list_ones : forall l, Forall (eq 1) l -> max_list 1 l = 1.
Proof.
  unfold max_list. induction l as [|x l IH]; intros H; [reflexivity|].
  inversion H; subst. cbn [fold_left]. change (Z.max 1 1) with 1. auto.
Qed.

Lemma sum_list_ones : forall l,
  Forall (eq 1) l -> sum_list l = Z.of_nat (List.length l).
Proof.
  unfold sum_list. induction l as [|x l IH]; intros H; [reflexivity|].
  inversion H; subst. cbn [fold_right List.length]. rewrite IH by assumption. lia.
Qed.

Lemma connections_ones : forall l,
  only_ones l -> Forall (eq 1) (map connections l).
Proof.
  induction l as [|r l IH]; intros H; cbn; constructor;
    inversion H; subst; auto.
Qed.

(** A positive integer divided by itself is the double [1.0]. *)
Lemma int_truediv_self : forall n, 0 < n -> int_truediv n n = Some float_one.
Proof.
  intros n Hn. destruct n as [|p|p]; try lia.
  unfold int_truediv. change (Z.pos p =? 0) with false. cbn [exact_of_int].
  unfold SFdiv, SFdiv_core_binary.
  replace (Zdigits2 (Z.pos p) + 0 - (Zdigits2 (Z.pos p) + 0)) with 0 by lia.
  change (Z.min (fexp prec emax 0) (0 - 0)) with (-53).
  change (0 - 0 - -53) with 53.
  cbv iota beta.
  assert (E : Z.div_eucl (Z.shiftl (Z.pos p) 53) (Z.pos p)
              = (9007199254740992, 0)).
  { rewrite Z.shiftl_mul_pow2 by lia.
    pose proof (Z.div_eucl_eq (Z.pos p * 2 ^ 53) (Z.pos p)) as D.
    pose proof (Z.mod_pos_bound (Z.pos p * 2 ^ 53) (Z.pos p)) as B.
    unfold Z.modulo in B.
    destruct (Z.div_eucl (Z.pos p * 2 ^ 53) (Z.pos p)) as [q r].
    specialize (D ltac:(lia)). specialize (B ltac:(lia)).
    assert (q = 2 ^ 53) by nia. subst q.
    assert (r = 0) by lia. subst r. reflexivity. }
  rewrite E.
  replace (new_location (Z.pos p) 0) with loc_Exact
    by (unfold new_location; destruct (Z.even (Z.pos p)); reflexivity).
  vm_compute. reflexivity.
Qed.

(** C10: whatever operations produced the store, every sample in it has
    [connections = 1], and the statistics the Supabase back end computes
    from it have a peak and an all-time maximum of 0 or 1 and an average of
    0 or the double 1.0. *)
Theorem usage_metrics_never_exceed_one :
  forall b ops now,
    let s := Trace.after b ops in
    let st := Supabase.get_usage_stats now s in
    Forall (fun r => connections r = 1) (usage_stats s)
    /\ (peak_last_hour st = PyInt 0 \/ peak_last_hour st = PyInt 1)
    /\ (all_time_max st = PyInt 0 \/ all_time_max st = PyInt 1)
    /\ (avg_last_hour st = PyInt 0 \/ avg_last_hour st = PyFloat float_one).
Proof.
  intros b ops now s st.
  pose proof (after_only_ones b ops) as H. fold s in H.
  split; [exact H|].
  subst st. unfold Supabase.get_usage_stats.
  set (rows := filter (fun r => now - hour <=? timestamp r) (usage_stats s)).
  assert (Hr : Forall (eq 1) (map connections rows)).
  { apply connections_ones, only_ones_filter, H. }
  assert (Ha : Forall (eq 1) (map connections (usage_stats s))).
  { apply connections_ones, H. }
  destruct (map connections rows) as [|x r] eqn:Er.
  - cbn. destruct (map connections (usage_stats s)) as [|y t];
      [auto|].
    inversion Ha; subst. rewrite max_list_ones by assumption. auto.
  - rewrite (sum_list_ones _ Hr).
    rewrite int_truediv_self by (cbn [List.length]; lia).
    inversion Hr; subst. rewrite max_list_ones by assumption.
    cbn. destruct (map connections (usage_stats s)) as [|y t]; [auto|].
    inversion Ha; subst. rewrite max_list_ones by assumption. auto.
Qed.

(** ** [current_connections] *)

Lemma sqlite_current_connections : forall now s,
  current_connections (Sqlite.get_usage_stats now s)
  = PyInt (Z.of_nat (List.length (samples_in_last_hour false now s))).
Proof. reflexivity. Qed.

Lemma supabase_current_connections : forall b ops now,
  current_connections (Supabase.get_usage_stats now (Trace.after b ops))
  = PyInt (Z.of_nat (List.length (usage_stats (Trace.after b ops)))).
Proof.
  intros b ops now.
  pose proof (after_only_ones b ops) as H.
  set (s := Trace.after b ops) in *.
  unfold Supabase.get_usage_stats.
  set (rows := filter (fun r => now - hour <=? timestamp r) (usage_stats s)).
  assert (Hr : Forall (eq 1) (map connections rows)).
  { apply connections_ones, only_ones_filter, H. }
  destruct (map connections rows) as [|x r] eqn:Er; [reflexivity|].
  rewrite (sum_list_ones _ Hr).
  rewrite int_truediv_self by (cbn [List.length]; lia).
  reflexivity.
Qed.

(** C4: with one sample three hours old and two samples of the last half
    hour in the table, two samples lie in the last-hour window (whether
    the window is closed or open at its far end) and the SQLite back end
    reports 2, but the Supabase back end, whose first query has no time
    filter, reports 3: the number of all stored rows. *)
Theorem supabase_current_connections_ignores_window :
  List.length (samples_in_last_hour true Sample.now Sample.samples) = 2%nat
  /\ List.length (samples_in_last_hour false Sample.now Sample.samples) = 2%nat
  /\ current_connections (Sqlite.get_usage_stats Sample.now Sample.samples)
     = PyInt 2
  /\ current_connections (Supabase.get_usage_stats Sample.now Sample.samples)
     = PyInt 3.
Proof. repeat split; vm_compute; reflexivity. Qed.

(* ================================================================== *)
(** * Further properties of the ledger *)
(* ================================================================== *)

(** ** Referral counts *)

Lemma get_referral_count_agree : forall uid s,
  Sqlite.get_referral_count uid s = Supabase.get_referral_count uid s.
Proof.
  intros. unfold Sqlite.get_referral_count, Supabase.get_referral_count,
    Supabase.select_count.
  destruct (filter _ (referrals s)); reflexivity.
Qed.

(** X1: a referrer without a row has the count 0, in both back ends. *)
Theorem referral_count_defaults_to_zero :
  forall uid s,
    has_referrer uid s = false ->
    Sqlite.get_referral_count uid s = 0
    /\ Supabase.get_referral_count uid s = 0.
Proof.
  intros uid s H. rewrite get_referral_count_agree.
  apply select_count_nil_iff in H.
  unfold Supabase.get_referral_count. rewrite H. auto.
Qed.

Lemma referral_count_defaults_to_zero_witness :
  Sqlite.get_referral_count 8 (db (Sample.credited 5)) = 0
  /\ Supabase.get_referral_count 8 (db (Sample.credited 5)) = 0.
Proof.
  apply (referral_count_defaults_to_zero 8 (db (Sample.credited 5))).
  reflexivity.
Defined.

Lemma supabase_increment_once : forall rid s,
  Supabase.get_referral_count rid (Supabase.increment_referral_count rid s)
  = Supabase.get_referral_count rid s + 1.
Proof.
  intros rid s. unfold Supabase.increment_referral_count,
    Supabase.get_referral_count.
  destruct (Supabase.select_count rid s) as [|c data] eqn:E.
  - pose proof (proj1 (select_count_nil_iff rid s) E) as Hno.
    unfold Supabase.write_back, Supabase.insert_referral.
    cbn [referrer_id]. rewrite Hno, select_count_app, E.
    cbn [referrer_id count]. rewrite Z.eqb_refl. reflexivity.
  - cbn [Supabase.write_back].
    destruct (select_count_update rid (c + 1) s c data E) as [d1 H1].
    rewrite H1. reflexivity.
Qed.

(** X2: calls that are served one after another are all counted: [n]
    increments for a referrer raise the stored count by [n], in the SQLite
    back end and in the Supabase back end alike. *)
Theorem sequential_increments_are_counted :
  forall n rid s,
    Sqlite.get_referral_count rid
      (Nat.iter n (Sqlite.increment_referral_count rid) s)
    = Sqlite.get_referral_count rid s + Z.of_nat n
    /\ Supabase.get_referral_count rid
         (Nat.iter n (Supabase.increment_referral_count rid) s)
       = Supabase.get_referral_count rid s + Z.of_nat n.
Proof.
  induction n as [|n IH]; intros rid s.
  - cbn [Nat.iter nat_rect]. split; lia.
  - destruct (IH rid s) as [I1 I2]. cbn [Nat.iter nat_rect].
    change (nat_rect (fun _ => Store) s (fun _ => Sqlite.increment_referral_count rid) n)
      with (Nat.iter n (Sqlite.increment_referral_count rid) s).
    change (nat_rect (fun _ => Store) s (fun _ => Supabase.increment_referral_count rid) n)
      with (Nat.iter n (Supabase.increment_referral_count rid) s).
    rewrite sqlite_increment_once, supabase_increment_once, I1, I2.
    split; lia.
Qed.

Lemma filter_other_map :
  forall (rid other : Z) (g : ReferralRow -> ReferralRow) l,
    other <> rid ->
    (forall r, referrer_id r = rid -> referrer_id (g r) = rid) ->
    filter (fun r => referrer_id r =? other)
      (map (fun r => if referrer_id r =? rid then g r else r) l)
    = filter (fun r => referrer_id r =? other) l.
Proof.
  intros rid other g l Hne Hg. induction l as [|r l IH]; [reflexivity|].
  cbn [map filter]. rewrite IH.
  destruct (referrer_id r =? rid) eqn:E; [|reflexivity].
  apply Z.eqb_eq in E.
  assert (E1 : (referrer_id (g r) =? other) = false)
    by (apply Z.eqb_neq; rewrite (Hg r E); lia).
  assert (E2 : (referrer_id r =? other) = false) by (apply Z.eqb_neq; lia).
  rewrite E1, E2. reflexivity.
Qed.

Lemma sqlite_increment_other : forall rid other s,
  other <> rid ->
  Sqlite.get_referral_count other (Sqlite.increment_referral_count rid s)
  = Sqlite.get_referral_count other s.
Proof.
  intros rid other s Hne.
  unfold Sqlite.get_referral_count, Sqlite.increment_referral_count.
  cbn [referrals].
  destruct (has_referrer rid s).
  - rewrite (filter_other_map rid other
               (fun r => {| referrer_id := rid; count := count r + 1 |})
               (referrals s) Hne); [reflexivity|].
    intros r _. reflexivity.
  - rewrite filter_app. cbn [filter referrer_id].
    assert (En : (rid =? other) = false) by (apply Z.eqb_neq; lia).
    rewrite En, app_nil_r. reflexivity.
Qed.

Lemma supabase_increment_other : forall rid other s,
  other <> rid ->
  Supabase.get_referral_count other (Supabase.increment_referral_count rid s)
  = Supabase.get_referral_count other s.
Proof.
  intros rid other s Hne.
  unfold Supabase.get_referral_count, Supabase.increment_referral_count,
    Supabase.write_back.
  destruct (Supabase.select_count rid s) as [|c data].
  - unfold Supabase.insert_referral. cbn [referrer_id].
    destruct (has_referrer rid s); [reflexivity|].
    rewrite select_count_app. cbn [referrer_id].
    assert (En : (rid =? other) = false) by (apply Z.eqb_neq; lia).
    rewrite En, app_nil_r. reflexivity.
  - unfold Supabase.select_count, Supabase.update_count. cbn [referrals].
    rewrite (filter_other_map rid other
               (fun r => {| referrer_id := referrer_id r; count := c + 1 |})
               (referrals s) Hne); [reflexivity|].
    intros r H. exact H.
Qed.

(** X3: an increment for one referrer leaves the count of every other
    referrer as it was, in both back ends. *)
Theorem increment_leaves_other_referrers :
  forall rid other s,
    other <> rid ->
    Sqlite.get_referral_count other (Sqlite.increment_referral_count rid s)
    = Sqlite.get_referral_count other s
    /\ Supabase.get_referral_count other
         (Supabase.increment_referral_count rid s)
       = Supabase.get_referral_count other s.
Proof.
  intros rid other s H. split;
    [apply sqlite_increment_other | apply supabase_increment_other]; exact H.
Qed.

Lemma increment_leaves_other_referrers_witness :
  Sqlite.get_referral_count 7
    (Sqlite.increment_referral_count 8 (db (Sample.credited 5)))
  = Sqlite.get_referral_count 7 (db (Sample.credited 5))
  /\ Supabase.get_referral_count 7
       (Supabase.increment_referral_count 8 (db (Sample.credited 5)))
     = Supabase.get_referral_count 7 (db (Sample.credited 5)).
Proof.
  apply (increment_leaves_other_referrers 8 7 (db (Sample.credited 5))).
  discriminate.
Defined.

(** ** The primary key of [referrals] and the two back ends *)

Lemma no_referrer_not_in : forall rid (l : list ReferralRow),
  existsb (fun r => referrer_id r =? rid) l = false ->
  ~ In rid (map referrer_id l).
Proof.
  induction l as [|r l IH]; cbn; intros H; [tauto|].
  apply orb_false_iff in H as [H1 H2]. apply Z.eqb_neq in H1.
  intros [Hin|Hin]; [contradiction | exact (IH H2 Hin)].
Qed.

Lemma map_untouched : forall rid (g : ReferralRow -> ReferralRow) l,
  ~ In rid (map referrer_id l) ->
  map (fun r => if referrer_id r =? rid then g r else r) l = l.
Proof.
  induction l as [|r l IH]; cbn [map]; intros H; [reflexivity|].
  cbn in H.
  assert (E : (referrer_id r =? rid) = false) by (apply Z.eqb_neq; tauto).
  rewrite E, IH by tauto. reflexivity.
Qed.

Lemma increment_keeps_ids : forall rid s,
  map referrer_id (referrals (Sqlite.increment_referral_count rid s))
  = if has_referrer rid s then map referrer_id (referrals s)
    else (map referrer_id (referrals s) ++ [rid])%list.
Proof.
  intros rid s. unfold Sqlite.increment_referral_count. cbn [referrals].
  destruct (has_referrer rid s).
  - rewrite map_map. apply map_ext_in. intros r _.
    destruct (referrer_id r =? rid) eqn:E; [|reflexivity].
    apply Z.eqb_eq in E. cbn. auto.
  - rewrite map_app. reflexivity.
Qed.

Lemma sqlite_increment_keeps_key : forall rid s,
  NoDup (map referrer_id (referrals s)) ->
  NoDup (map referrer_id (referrals (Sqlite.increment_referral_count rid s))).
Proof.
  intros rid s H. rewrite increment_keeps_ids.
  destruct (has_referrer rid s) eqn:E; [exact H|].
  apply NoDup_app; [exact H | repeat constructor; intros [] |].
  intros x Hx [Hin|[]]. subst x.
  exact (no_referrer_not_in rid _ E Hx).
Qed.

Lemma supabase_increment_eq : forall rid s,
  NoDup (map referrer_id (referrals s)) ->
  Supabase.increment_referral_count rid s
  = Sqlite.increment_referral_count rid s.
Proof.
  intros rid s Hk.
  unfold Supabase.increment_referral_count, Sqlite.increment_referral_count,
    Supabase.write_back.
  destruct (Supabase.select_count rid s) as [|c data] eqn:E.
  - pose proof (proj1 (select_count_nil_iff rid s) E) as Hno.
    unfold Supabase.insert_referral. cbn [referrer_id]. rewrite Hno.
    reflexivity.
  - assert (Hyes : has_referrer rid s = true).
    { destruct (has_referrer rid s) eqn:Eh; [reflexivity|].
      apply select_count_nil_iff in Eh. congruence. }
    rewrite Hyes. unfold Supabase.update_count. f_equal.
    unfold Supabase.select_count in E. clear Hyes.
    revert Hk E. induction (referrals s) as [|r l IH]; intros Hk E;
      [reflexivity|].
    cbn [map filter] in *. inversion Hk as [|x xs Hnotin Hk']; subst.
    destruct (referrer_id r =? rid) eqn:Er.
    + cbn [map] in E. injection E as Ec _. apply Z.eqb_eq in Er.
      rewrite Er in Hnotin.
      rewrite !map_untouched by exact Hnotin.
      rewrite Ec, Er. reflexivity.
    + rewrite (IH Hk' E). reflexivity.
Qed.

Lemma apply_agrees : forall s o,
  NoDup (map referrer_id (referrals s)) ->
  Trace.apply Trace.SupabaseService s o = Trace.apply Trace.SQLite s o
  /\ NoDup (map referrer_id (referrals (Trace.apply Trace.SQLite s o))).
Proof.
  intros s o H. destruct o; cbn [Trace.apply].
  - rewrite supabase_add_new_user_eq. split; [reflexivity|].
    unfold Sqlite.add_new_user. destruct (has_user uid s); exact H.
  - rewrite supabase_increment_eq by exact H. split; [reflexivity|].
    apply sqlite_increment_keeps_key. exact H.
  - split; [reflexivity | exact H].
  - split; [reflexivity | exact H].
Qed.

Lemma traces_agree_from : forall ops s,
  NoDup (map referrer_id (referrals s)) ->
  fold_left (Trace.apply Trace.SupabaseService) ops s
  = fold_left (Trace.apply Trace.SQLite) ops s
  /\ NoDup (map referrer_id
              (referrals (fold_left (Trace.apply Trace.SQLite) ops s))).
Proof.
  induction ops as [|o ops IH]; intros s H; cbn [fold_left]; [auto|].
  destruct (apply_agrees s o H) as [E K]. rewrite E. apply IH. exact K.
Qed.

Lemma has_user_by_ids : forall uid s1 s2,
  map user_id (users s1) = map user_id (users s2) ->
  has_user uid s1 = has_user uid s2.
Proof.
  intros uid s1 s2. unfold has_user.
  generalize (users s1) (users s2). clear s1 s2.
  induction l as [|r l IH]; intros [|r' l'] H; cbn [map] in H;
    try discriminate; [reflexivity|].
  injection H as Hr Hl. cbn [existsb]. rewrite Hr, (IH l' Hl). reflexivity.
Qed.

Lemma apply_same_call : forall s1 s2 o1 o2,
  Trace.same_call o1 o2 ->
  referrals s1 = referrals s2 ->
  usage_stats s1 = usage_stats s2 ->
  map user_id (users s1) = map user_id (users s2) ->
  referrals (Trace.apply Trace.SQLite s1 o1)
  = referrals (Trace.apply Trace.SQLite s2 o2)
  /\ usage_stats (Trace.apply Trace.SQLite s1 o1)
     = usage_stats (Trace.apply Trace.SQLite s2 o2)
  /\ map user_id (users (Trace.apply Trace.SQLite s1 o1))
     = map user_id (users (Trace.apply Trace.SQLite s2 o2)).
Proof.
  intros s1 s2 o1 o2 H Hr Hu Hi.
  destruct o1, o2; cbn [Trace.same_call] in H; try contradiction; subst;
    cbn [Trace.apply].
  - unfold Sqlite.add_new_user.
    rewrite (has_user_by_ids _ s1 s2 Hi).
    destruct (has_user uid0 s2); cbn [users referrals usage_stats];
      [auto|].
    rewrite !map_app, Hi. auto.
  - unfold Sqlite.increment_referral_count, has_referrer.
    cbn [users referrals usage_stats]. rewrite Hr. auto.
  - unfold Sqlite.update_usage_stats. cbn [users referrals usage_stats].
    rewrite Hu. auto.
  - unfold Sqlite.cleanup_old_stats. cbn [users referrals usage_stats].
    rewrite Hu. auto.
Qed.

Lemma same_calls_from : forall ops1 ops2,
  Forall2 Trace.same_call ops1 ops2 ->
  forall s1 s2,
    referrals s1 = referrals s2 ->
    usage_stats s1 = usage_stats s2 ->
    map user_id (users s1) = map user_id (users s2) ->
    referrals (fold_left (Trace.apply Trace.SQLite) ops1 s1)
    = referrals (fold_left (Trace.apply Trace.SQLite) ops2 s2)
    /\ usage_stats (fold_left (Trace.apply Trace.SQLite) ops1 s1)
       = usage_stats (fold_left (Trace.apply Trace.SQLite) ops2 s2)
    /\ map user_id (users (fold_left (Trace.apply Trace.SQLite) ops1 s1))
       = map user_id (users (fold_left (Trace.apply Trace.SQLite) ops2 s2)).
Proof.
  induction 1 as [|o1 o2 ops1 ops2 Ho _ IH]; intros s1 s2 Hr Hu Hi;
    cbn [fold_left]; [auto|].
  destruct (apply_same_call s1 s2 o1 o2 Ho Hr Hu Hi) as (Hr' & Hu' & Hi').
  apply IH; assumption.
Qed.

(** X4: served the same calls one after the other, the Supabase back end
    and the SQLite back end hold the same [referrals] table, the same
    [usage_stats] table, and the same user identifiers in the same order,
    whatever instant each of them stores as [first_seen]. *)
Theorem back_ends_agree_on_sequential_use :
  forall ops1 ops2,
    Forall2 Trace.same_call ops1 ops2 ->
    referrals (Trace.after Trace.SupabaseService ops1)
    = referrals (Trace.after Trace.SQLite ops2)
    /\ usage_stats (Trace.after Trace.SupabaseService ops1)
       = usage_stats (Trace.after Trace.SQLite ops2)
    /\ map user_id (users (Trace.after Trace.SupabaseService ops1))
       = map user_id (users (Trace.after Trace.SQLite ops2)).
Proof.
  intros ops1 ops2 H. unfold Trace.after.
  rewrite (proj1 (traces_agree_from ops1 empty ltac:(constructor))).
  apply same_calls_from; [exact H | reflexivity ..].
Qed.

Lemma back_ends_agree_on_sequential_use_witness :
  referrals
    (Trace.after Trace.SupabaseService
       [Trace.AddNewUser (2 * hour + 917) 7;
        Trace.IncrementReferralCount 9;
        Trace.UpdateUsageStats (2 * hour + 950);
        Trace.AddNewUser (2 * hour + 1200) 7;
        Trace.IncrementReferralCount 9;
        Trace.CleanupOldStats (26 * hour)])
  = referrals
      (Trace.after Trace.SQLite
         [Trace.AddNewUser 0 7;
          Trace.IncrementReferralCount 9;
          Trace.UpdateUsageStats (2 * hour + 950);
          Trace.AddNewUser 1000000 7;
          Trace.IncrementReferralCount 9;
          Trace.CleanupOldStats (26 * hour)])
  /\ usage_stats
       (Trace.after Trace.SupabaseService
          [Trace.AddNewUser (2 * hour + 917) 7;
           Trace.IncrementReferralCount 9;
           Trace.UpdateUsageStats (2 * hour + 950);
           Trace.AddNewUser (2 * hour + 1200) 7;
           Trace.IncrementReferralCount 9;
           Trace.CleanupOldStats (26 * hour)])
     = usage_stats
         (Trace.after Trace.SQLite
            [Trace.AddNewUser 0 7;
             Trace.IncrementReferralCount 9;
             Trace.UpdateUsageStats (2 * hour + 950);
             Trace.AddNewUser 1000000 7;
             Trace.IncrementReferralCount 9;
             Trace.CleanupOldStats (26 * hour)])
  /\ map user_id
       (users
          (Trace.after Trace.SupabaseService
             [Trace.AddNewUser (2 * hour + 917) 7;
              Trace.IncrementReferralCount 9;
              Trace.UpdateUsageStats (2 * hour + 950);
              Trace.AddNewUser (2 * hour + 1200) 7;
              Trace.IncrementReferralCount 9;
              Trace.CleanupOldStats (26 * hour)]))
     = map user_id
         (users
            (Trace.after Trace.SQLite
               [Trace.AddNewUser 0 7;
                Trace.IncrementReferralCount 9;
                Trace.UpdateUsageStats (2 * hour + 950);
                Trace.AddNewUser 1000000 7;
                Trace.IncrementReferralCount 9;
                Trace.CleanupOldStats (26 * hour)])).
Proof.
  apply back_ends_agree_on_sequential_use.
  repeat constructor.
Defined.

Lemma counts_positive_apply : forall s o,
  Forall (fun r => 1 <= count r) (referrals s) ->
  Forall (fun r => 1 <= count r) (referrals (Trace.apply Trace.SQLite s o)).
Proof.
  intros s o H. destruct o; cbn [Trace.apply].
  - unfold Sqlite.add_new_user. destruct (has_user uid s); exact H.
  - unfold Sqlite.increment_referral_count. cbn [referrals].
    destruct (has_referrer rid s).
    + rewrite Forall_forall in *. intros r Hr.
      apply in_map_iff in Hr as (r0 & <- & Hin). specialize (H r0 Hin).
      destruct (referrer_id r0 =? rid); cbn [count]; lia.
    + apply Forall_app. split; [exact H|]. repeat constructor. cbn. lia.
  - exact H.
  - exact H.
Qed.

Lemma counts_positive_from : forall ops s,
  Forall (fun r => 1 <= count r) (referrals s) ->
  Forall (fun r => 1 <= count r)
    (referrals (fold_left (Trace.apply Trace.SQLite) ops s)).
Proof.
  induction ops as [|o ops IH]; intros s H; cbn [fold_left]; [exact H|].
  apply IH, counts_positive_apply, H.
Qed.

(** X5: in every store the operations produce, each referrer has at most
    one row of [referrals], and every stored count is at least 1. *)
Theorem referrals_keep_key_and_positive_counts :
  forall b ops,
    NoDup (map referrer_id (referrals (Trace.after b ops)))
    /\ Forall (fun r => 1 <= count r) (referrals (Trace.after b ops)).
Proof.
  intros b ops.
  assert (G : NoDup (map referrer_id (referrals (Trace.after Trace.SQLite ops)))
              /\ Forall (fun r => 1 <= count r)
                   (referrals (Trace.after Trace.SQLite ops))).
  { unfold Trace.after. split.
    - apply traces_agree_from. constructor.
    - apply counts_positive_from. constructor. }
  destruct b; [exact G|].
  unfold Trace.after in *.
  rewrite (proj1 (traces_agree_from ops empty ltac:(constructor))).
  exact G.
Qed.

(** ** Users *)

Lemma users_kept_by_apply : forall b s o r,
  In r (users s) -> In r (users (Trace.apply b s o)).
Proof.
  intros b s o r H.
  destruct b, o; cbn [Trace.apply];
    try rewrite supabase_add_new_user_eq;
    try rewrite supabase_increment_users;
    try exact H.
  - unfold Sqlite.add_new_user. destruct (has_user uid s); [exact H|].
    cbn [users]. apply in_or_app. left. exact H.
  - unfold Sqlite.add_new_user. destruct (has_user uid s); [exact H|].
    cbn [users]. apply in_or_app. left. exact H.
Qed.

(** X6: no operation removes or rewrites a user row: a row present after
    some operations, with its [first_seen], is present after any further
    operations. *)
Theorem user_rows_are_never_lost :
  forall b ops more r,
    In r (users (Trace.after b ops)) ->
    In r (users (Trace.after b (ops ++ more))).
Proof.
  intros b ops more r. unfold Trace.after. rewrite fold_left_app.
  generalize (fold_left (Trace.apply b) ops empty).
  induction more as [|o more IH]; intros s H; cbn [fold_left]; [exact H|].
  apply IH, users_kept_by_apply, H.
Qed.

Lemma user_rows_are_never_lost_witness :
  In {| user_id := 7; first_seen := 1 |}
    (users (Trace.after Trace.SupabaseService
              ([Trace.AddNewUser 1 7]
               ++ [Trace.AddNewUser 2 7; Trace.CleanupOldStats 3]))).
Proof.
  apply (user_rows_are_never_lost Trace.SupabaseService
           [Trace.AddNewUser 1 7]
           [Trace.AddNewUser 2 7; Trace.CleanupOldStats 3]).
  simpl. left. reflexivity.
Defined.

(** X7: the number of users grows by one when an unknown identifier is
    added and not at all for a known one; and in every store the operations
    produce, SQLite's [COUNT(DISTINCT user_id)] is the number of rows that
    the Supabase back end reports. *)
Theorem unique_users_count_tracks_new_users :
  (forall now uid s,
     Supabase.get_unique_users_count (Supabase.add_new_user now uid s)
     = Supabase.get_unique_users_count s
       + (if has_user uid s then 0 else 1))
  /\ (forall b ops,
        Sqlite.get_unique_users_count (Trace.after b ops)
        = Supabase.get_unique_users_count (Trace.after b ops)).
Proof.
  split.
  - intros now uid s. rewrite supabase_add_new_user_eq.
    unfold Supabase.get_unique_users_count, Sqlite.add_new_user.
    destruct (has_user uid s); [lia|].
    cbn [users]. rewrite length_app. cbn [List.length]. lia.
  - intros b ops.
    unfold Sqlite.get_unique_users_count, Supabase.get_unique_users_count.
    rewrite nodup_fixed_point.
    + rewrite length_map. reflexivity.
    + unfold Trace.after. apply users_key_after. constructor.
Qed.

(** ** Retention and the last-hour window *)

Lemma filter_filter_implied : forall (A : Type) (f g : A -> bool) l,
  (forall x, f x = true -> g x = true) ->
  filter f (filter g l) = filter f l.
Proof.
  intros A f g l H. induction l as [|x l IH]; [reflexivity|].
  cbn [filter]. destruct (g x) eqn:Eg.
  - cbn [filter]. rewrite IH. reflexivity.
  - destruct (f x) eqn:Ef; [|exact IH].
    rewrite (H x Ef) in Eg. discriminate.
Qed.

(** X8: [cleanup_old_stats] keeps exactly the samples that are not older
    than 24 hours, and touches neither [users] nor [referrals]; the two
    back ends do the same. *)
Theorem cleanup_keeps_the_last_day :
  forall now s,
    (forall r,
       In r (usage_stats (Sqlite.cleanup_old_stats now s))
       <-> In r (usage_stats s) /\ now - 24 * hour <= timestamp r)
    /\ users (Sqlite.cleanup_old_stats now s) = users s
    /\ referrals (Sqlite.cleanup_old_stats now s) = referrals s
    /\ Supabase.cleanup_old_stats now s = Sqlite.cleanup_old_stats now s.
Proof.
  intros now s. split; [|repeat split].
  intros r. cbn [Sqlite.cleanup_old_stats usage_stats].
  rewrite filter_In, negb_true_iff, Z.ltb_ge. tauto.
Qed.

(** X9: purging old samples does not change what the statistics say about
    the last hour: the count, peak and average of the SQLite back end and
    the peak and average of the Supabase back end are the same before and
    after [cleanup_old_stats] at the same instant. *)
Theorem cleanup_preserves_last_hour_metrics :
  forall now s,
    (current_connections (Sqlite.get_usage_stats now (Sqlite.cleanup_old_stats now s))
     = current_connections (Sqlite.get_usage_stats now s)
     /\ peak_last_hour (Sqlite.get_usage_stats now (Sqlite.cleanup_old_stats now s))
        = peak_last_hour (Sqlite.get_usage_stats now s)
     /\ avg_last_hour (Sqlite.get_usage_stats now (Sqlite.cleanup_old_stats now s))
        = avg_last_hour (Sqlite.get_usage_stats now s))
    /\ (peak_last_hour (Supabase.get_usage_stats now (Supabase.cleanup_old_stats now s))
        = peak_last_hour (Supabase.get_usage_stats now s)
        /\ avg_last_hour (Supabase.get_usage_stats now (Supabase.cleanup_old_stats now s))
           = avg_last_hour (Supabase.get_usage_stats now s)).
Proof.
  intros now s.
  assert (F1 : filter (fun r => now - hour <? timestamp r)
                 (usage_stats (Sqlite.cleanup_old_stats now s))
               = filter (fun r => now - hour <? timestamp r) (usage_stats s)).
  { cbn [Sqlite.cleanup_old_stats usage_stats].
    apply filter_filter_implied. intros r H.
    apply Z.ltb_lt in H. apply negb_true_iff, Z.ltb_ge.
    unfold hour in *. lia. }
  assert (F2 : filter (fun r => now - hour <=? timestamp r)
                 (usage_stats (Supabase.cleanup_old_stats now s))
               = filter (fun r => now - hour <=? timestamp r) (usage_stats s)).
  { cbn [Supabase.cleanup_old_stats usage_stats].
    apply filter_filter_implied. intros r H.
    apply Z.leb_le in H. apply negb_true_iff, Z.ltb_ge.
    unfold hour in *. lia. }
  split.
  - unfold Sqlite.get_usage_stats.
    cbn [current_connections peak_last_hour avg_last_hour].
    rewrite F1. auto.
  - unfold Supabase.get_usage_stats. cbv zeta. rewrite F2.
    match goal with
    | |- context [match ?x with Some _ => _ | None => _ end] =>
        destruct x as [[? ?]|]
    end; split; reflexivity.
Qed.

(** X10: a sample recorded at [t] is counted by the SQLite statistics at
    [now] exactly when [t] is later than [now - 1h]: inside the window it
    raises [current_connections] by one, outside it changes nothing. *)
Theorem recorded_sample_is_counted_in_window :
  forall t now s,
    current_connections
      (Sqlite.get_usage_stats now (Sqlite.update_usage_stats t s))
    = PyInt (Z.of_nat
               (List.length (samples_in_last_hour false now s))
             + (if now - hour <? t then 1 else 0)).
Proof.
  intros t now s. unfold Sqlite.get_usage_stats, Sqlite.update_usage_stats,
    samples_in_last_hour.
  cbn [current_connections usage_stats]. rewrite filter_app.
  cbn [filter timestamp]. rewrite length_app.
  destruct (now - hour <? t); cbn [List.length]; f_equal; lia.
Qed.

(** X11: when no stored sample is later than [now - 1h], the SQLite
    statistics report a count of 0 and hold [None] (SQL [NULL]), not 0, for
    the peak and the average of the last hour; with an empty table the
    all-time maximum is [None] as well. *)
Theorem sqlite_stats_without_recent_samples :
  forall now s,
    (forall r, In r (usage_stats s) -> timestamp r <= now - hour) ->
    current_connections (Sqlite.get_usage_stats now s) = PyInt 0
    /\ peak_last_hour (Sqlite.get_usage_stats now s) = PyNone
    /\ avg_last_hour (Sqlite.get_usage_stats now s) = PyNone
    /\ (usage_stats s = [] ->
        all_time_max (Sqlite.get_usage_stats now s) = PyNone).
Proof.
  intros now s H. unfold Sqlite.get_usage_stats.
  assert (F : filter (fun r => now - hour <? timestamp r) (usage_stats s) = []).
  { induction (usage_stats s) as [|r l IH]; [reflexivity|].
    cbn [filter].
    assert (E : (now - hour <? timestamp r) = false).
    { apply Z.ltb_ge. apply H. left. reflexivity. }
    rewrite E. apply IH. intros r0 Hr0. apply H. right. exact Hr0. }
  rewrite F. cbn. repeat split. intros E. rewrite E. reflexivity.
Qed.

Lemma sqlite_stats_without_recent_samples_witness :
  current_connections (Sqlite.get_usage_stats Sample.now
     (Sqlite.update_usage_stats 0 Sqlite.init_db)) = PyInt 0
  /\ peak_last_hour (Sqlite.get_usage_stats Sample.now
       (Sqlite.update_usage_stats 0 Sqlite.init_db)) = PyNone
  /\ avg_last_hour (Sqlite.get_usage_stats Sample.now
       (Sqlite.update_usage_stats 0 Sqlite.init_db)) = PyNone
  /\ (usage_stats (Sqlite.update_usage_stats 0 Sqlite.init_db) = [] ->
      all_time_max (Sqlite.get_usage_stats Sample.now
        (Sqlite.update_usage_stats 0 Sqlite.init_db)) = PyNone).
Proof.
  apply (sqlite_stats_without_recent_samples Sample.now
           (Sqlite.update_usage_stats 0 Sqlite.init_db)).
  intros r [<-|[]]. vm_compute. discriminate.
Defined.

(* ================================================================== *)
(** * Further properties of the conversation engine *)
(* ================================================================== *)

(** ** Overlapping increments *)

Lemma run_app : forall a b calls s,
  Interleave.run (a ++ b) calls s
  = let (c, s1) := Interleave.run a calls s in Interleave.run b c s1.
Proof.
  induction a as [|i a IH]; intros b calls s; [reflexivity|].
  cbn [app Interleave.run].
  destruct (nth_error calls i) as [c|]; [|apply IH].
  destruct (Interleave.step c s) as [c' s']. apply IH.
Qed.

Lemma set_nth_middle : forall (A : Type) (a b : list A) (x y : A),
  Interleave.set_nth (List.length a) x (a ++ y :: b) = (a ++ x :: b)%list.
Proof.
  induction a as [|z a IH]; intros b x y; [reflexivity|].
  cbn [List.length app Interleave.set_nth]. rewrite IH. reflexivity.
Qed.

Lemma nth_error_middle : forall (A : Type) (a b : list A) (y : A),
  nth_error (a ++ y :: b) (List.length a) = Some y.
Proof.
  intros. rewrite nth_error_app2 by lia. rewrite Nat.sub_diag. reflexivity.
Qed.

Lemma repeat_snoc : forall (A : Type) (x : A) k (l : list A),
  (repeat x k ++ x :: l)%list = (repeat x (S k) ++ l)%list.
Proof.
  intros A x k l. induction k as [|k IH]; [reflexivity|].
  cbn [repeat app] in *. rewrite IH. reflexivity.
Qed.

(** All calls issue their [select] before any of them writes. *)
Lemma run_selects : forall rid s m k,
  Interleave.run (seq k m)
    (repeat (Interleave.Selected rid (Supabase.select_count rid s)) k
     ++ repeat (Interleave.Called rid) m)%list s
  = (repeat (Interleave.Selected rid (Supabase.select_count rid s)) (k + m), s).
Proof.
  intros rid s. induction m as [|m IH]; intros k.
  - cbn [seq Interleave.run repeat]. rewrite app_nil_r, Nat.add_0_r.
    reflexivity.
  - cbn [seq Interleave.run repeat].
    pose proof (nth_error_middle _
      (repeat (Interleave.Selected rid (Supabase.select_count rid s)) k)
      (repeat (Interleave.Called rid) m) (Interleave.Called rid)) as E.
    rewrite repeat_length in E. rewrite E. cbn [Interleave.step].
    pose proof (set_nth_middle _
      (repeat (Interleave.Selected rid (Supabase.select_count rid s)) k)
      (repeat (Interleave.Called rid) m)
      (Interleave.Selected rid (Supabase.select_count rid s))
      (Interleave.Called rid)) as F.
    rewrite repeat_length in F. rewrite F, repeat_snoc, IH.
    f_equal. f_equal. lia.
Qed.

(** Once a write has been done, a write computed from the same stale read
    changes nothing. *)
Lemma write_back_twice : forall rid s,
  Supabase.write_back rid (Supabase.select_count rid s)
    (Supabase.write_back rid (Supabase.select_count rid s) s)
  = Supabase.write_back rid (Supabase.select_count rid s) s.
Proof.
  intros rid s.
  destruct (Supabase.select_count rid s) as [|c data] eqn:E.
  - pose proof (proj1 (select_count_nil_iff rid s) E) as Hno.
    assert (W : Supabase.write_back rid [] s
                = {| users := users s;
                     referrals := (referrals s
                                   ++ [ {| referrer_id := rid; count := 1 |} ])%list;
                     usage_stats := usage_stats s |}).
    { unfold Supabase.write_back, Supabase.insert_referral.
      cbn [referrer_id]. rewrite Hno. reflexivity. }
    rewrite W.
    unfold Supabase.write_back, Supabase.insert_referral. cbn [referrer_id].
    unfold has_referrer. cbn [referrals]. rewrite existsb_app. cbn [existsb].
    rewrite Z.eqb_refl, orb_true_r. reflexivity.
  - cbn [Supabase.write_back]. unfold Supabase.update_count.
    cbn [users referrals usage_stats]. f_equal.
    rewrite map_map. apply map_ext. intros r.
    destruct (referrer_id r =? rid) eqn:Er; cbn [referrer_id];
      rewrite Er; reflexivity.
Qed.

Lemma run_writes : forall rid data s m k,
  Supabase.write_back rid data s = s ->
  Interleave.run (seq k m)
    (repeat Interleave.Returned k
     ++ repeat (Interleave.Selected rid data) m)%list s
  = (repeat Interleave.Returned (k + m), s).
Proof.
  intros rid data s m. induction m as [|m IH]; intros k Hs.
  - cbn [seq Interleave.run repeat]. rewrite app_nil_r, Nat.add_0_r.
    reflexivity.
  - cbn [seq Interleave.run repeat].
    pose proof (nth_error_middle _ (repeat Interleave.Returned k)
      (repeat (Interleave.Selected rid data) m)
      (Interleave.Selected rid data)) as E.
    rewrite repeat_length in E. rewrite E. cbn [Interleave.step].
    pose proof (set_nth_middle _ (repeat Interleave.Returned k)
      (repeat (Interleave.Selected rid data) m)
      Interleave.Returned (Interleave.Selected rid data)) as F.
    rewrite repeat_length in F. rewrite F, repeat_snoc, Hs, IH by exact Hs.
    f_equal. f_equal. lia.
Qed.

(** X12: however many calls of the Supabase [increment_referral_count]
    overlap so that every [select] is served before the first write, all of
    them return and the stored count grows by one only. *)
Theorem overlapping_increments_count_once :
  forall n rid s,
    Interleave.run (seq 0 (S n) ++ seq 0 (S n))
      (repeat (Interleave.Called rid) (S n)) s
    = (repeat Interleave.Returned (S n),
       Supabase.increment_referral_count rid s)
    /\ Supabase.get_referral_count rid
         (Supabase.increment_referral_count rid s)
       = Supabase.get_referral_count rid s + 1.
Proof.
  intros n rid s. split; [|apply supabase_increment_once].
  rewrite run_app.
  set (data := Supabase.select_count rid s).
  assert (R : Interleave.run (seq 0 (S n))
                (repeat (Interleave.Called rid) (S n)) s
              = (repeat (Interleave.Selected rid data) (S n), s))
    by exact (run_selects rid s (S n) 0).
  rewrite R.
  assert (W : Interleave.run (seq 1 n)
                (Interleave.Returned :: repeat (Interleave.Selected rid data) n)
                (Supabase.write_back rid data s)
              = (repeat Interleave.Returned (S n),
                 Supabase.write_back rid data s))
    by exact (run_writes rid data _ n 1 (write_back_twice rid s)).
  cbn [seq Interleave.run repeat nth_error Interleave.step Interleave.set_nth].
  exact W.
Qed.

(** ** Random strings *)

(** X13: a random string has the requested length, is alphanumeric and
    consumes one draw per character; two strings drawn one after the other
    are the two halves of one longer draw, so the second never reuses a
    draw of the first. *)
Theorem random_strings_chain :
  forall n m g,
    let (s1, g1) := generate_random_string n g in
    let (s2, g2) := generate_random_string m g1 in
    generate_random_string (n + m) g = (s1 ++ s2, g2)
    /\ String.length s1 = n /\ all_alnum s1 = true
    /\ used g1 = (used g + n)%nat.
Proof.
  induction n as [|n IH]; intros m g.
  - cbn [generate_random_string Nat.add].
    destruct (generate_random_string m g) as [s2 g2].
    cbn. repeat split. lia.
  - destruct (generate_random_string (S n) g) as [s1 g1] eqn:E1.
    destruct (generate_random_string_spec _ _ _ _ E1) as (Hl & Ha & Hu & _).
    destruct (generate_random_string m g1) as [s2 g2] eqn:E2.
    split; [|auto].
    cbn [generate_random_string Nat.add] in *.
    destruct (random_choice characters g) as [c g0].
    specialize (IH m g0).
    destruct (generate_random_string n g0) as [t g0'].
    injection E1 as <- <-. rewrite E2 in IH.
    destruct IH as (IH & _). rewrite IH. reflexivity.
Qed.

(** ** [start] *)

Lemma supabase_add_new_user_frame : forall now uid s,
  referrals (Supabase.add_new_user now uid s) = referrals s
  /\ usage_stats (Supabase.add_new_user now uid s) = usage_stats s.
Proof.
  intros. rewrite supabase_add_new_user_eq. unfold Sqlite.add_new_user.
  destruct (has_user uid s); auto.
Qed.

Lemma supabase_increment_usage : forall rid s,
  usage_stats (Supabase.increment_referral_count rid s) = usage_stats s.
Proof.
  intros. unfold Supabase.increment_referral_count, Supabase.write_back,
    Supabase.insert_referral, Supabase.update_count.
  destruct (Supabase.select_count rid s); [|reflexivity].
  destruct (has_referrer _ s); reflexivity.
Qed.

Lemma count_after_add_new_user : forall now uid x s,
  Supabase.get_referral_count x (Supabase.add_new_user now uid s)
  = Supabase.get_referral_count x s.
Proof.
  intros. unfold Supabase.get_referral_count, Supabase.select_count.
  rewrite (proj1 (supabase_add_new_user_frame now uid s)). reflexivity.
Qed.

(** X14: [/start], from any conversation state and with any arguments,
    answers with the main menu alone and ends the conversation; afterwards
    the caller has a row in [users]; the usage samples and the random
    source are untouched, and the log has grown by the one line that
    [add_new_user] writes: the success line for a new user, the error line
    for a known one. *)
Theorem start_registers_and_resets :
  forall cfg now user st args w,
    let '(w', out, st') :=
      handle_update cfg now user st (Command "start" args) w in
    out = [Welcome] /\ st' = END
    /\ has_user (id user) (db w') = true
    /\ usage_stats (db w') = usage_stats (db w)
    /\ rng w' = rng w
    /\ log w'
       = (log w
          ++ [if has_user (id user) (db w)
              then LogError "Error adding new user"
              else LogInfo ("Added new user: " ++ str_of_int (id user))])%list.
Proof.
  intros cfg now user st args w.
  unfold handle_update. cbn [String.eqb Ascii.eqb Bool.eqb].
  unfold start, add_new_user_log, logging.
  cbn [next_state with_db db rng log].
  assert (U : has_user (id user)
                (Supabase.add_new_user now (id user) (db w)) = true)
    by (rewrite supabase_add_new_user_eq; apply has_user_after_add).
  pose proof (proj2 (supabase_add_new_user_frame now (id user) (db w))) as F.
  repeat split;
    try (destruct args as [|a rest]; [assumption|];
         destruct (py_int a) as [rid|]; [|assumption];
         destruct (negb (rid =? id user)); [|assumption]).
  - unfold has_user in *. rewrite supabase_increment_users. exact U.
  - rewrite supabase_increment_usage. exact F.
Qed.

(** X15: a [/start] whose argument reads as the identifier of somebody
    else credits that referrer with exactly one referral and leaves every
    other count as it was. *)
Theorem referral_credits_the_referrer :
  forall now user arg rest w rid,
    py_int arg = Some rid ->
    rid <> id user ->
    Supabase.get_referral_count rid
      (db (fst (fst (start now user (arg :: rest) w))))
    = Supabase.get_referral_count rid (db w) + 1
    /\ forall other,
         other <> rid ->
         Supabase.get_referral_count other
           (db (fst (fst (start now user (arg :: rest) w))))
         = Supabase.get_referral_count other (db w).
Proof.
  intros now user arg rest w rid Hp Hne.
  unfold start. rewrite Hp.
  assert (E : (rid =? id user) = false) by (apply Z.eqb_neq; exact Hne).
  rewrite E. unfold logging. cbn [negb fst with_db db]. split.
  - rewrite supabase_increment_once. rewrite count_after_add_new_user.
    reflexivity.
  - intros other Ho.
    rewrite supabase_increment_other by exact Ho.
    apply count_after_add_new_user.
Qed.

Lemma referral_credits_the_referrer_witness :
  Supabase.get_referral_count 7
    (db (fst (fst (start 0 Sample.admin ["7"] (Sample.credited 5)))))
  = Supabase.get_referral_count 7 (db (Sample.credited 5)) + 1
  /\ forall other,
       other <> 7 ->
       Supabase.get_referral_count other
         (db (fst (fst (start 0 Sample.admin ["7"] (Sample.credited 5)))))
       = Supabase.get_referral_count other (db (Sample.credited 5)).
Proof.
  apply (referral_credits_the_referrer 0 Sample.admin "7" []
           (Sample.credited 5) 7).
  - vm_compute. reflexivity.
  - vm_compute. discriminate.
Defined.

(** X16: a [/start] without argument, or with an argument that [int]
    rejects, changes no referral row. *)
Theorem malformed_referral_is_ignored :
  forall now user args w,
    (args = [] \/ exists a rest, args = a :: rest /\ py_int a = None) ->
    referrals (db (fst (fst (start now user args w)))) = referrals (db w).
Proof.
  intros now user args w [-> | (a & rest & -> & Hp)];
    unfold start; try rewrite Hp; unfold logging; cbn [fst with_db db];
    apply supabase_add_new_user_frame.
Qed.

Lemma malformed_referral_is_ignored_witness :
  referrals (db (fst (fst (start 0 Sample.alice ["7a"] (Sample.credited 5)))))
  = referrals (db (Sample.credited 5)).
Proof.
  apply (malformed_referral_is_ignored 0 Sample.alice ["7a"]
           (Sample.credited 5)).
  right. exists "7a", []. split; [reflexivity|]. vm_compute. reflexivity.
Defined.

(** ** The referral link *)

(** X17: the value that the Earn summary writes after [?start=] in the
    referral link reads back, through [int], as the identifier of the
    link's owner; so when another user opens the link, the owner is
    credited with one referral. *)
Theorem referral_link_credits_its_owner :
  forall now owner visitor rest w,
    0 <= id owner ->
    id visitor <> id owner ->
    py_int (str_of_int (id owner)) = Some (id owner)
    /\ Supabase.get_referral_count (id owner)
         (db (fst (fst (start now visitor
                          (str_of_int (id owner) :: rest) w))))
       = Supabase.get_referral_count (id owner) (db w) + 1.
Proof.
  intros now owner visitor rest w Hpos Hne.
  assert (R : py_int (str_of_int (id owner)) = Some (id owner)).
  { assert (E : str_of_int (id owner) = str_of_N (Z.to_N (id owner)))
      by (destruct (id owner); try reflexivity; lia).
    rewrite E, py_int_str_of_N, Z2N.id by exact Hpos. reflexivity. }
  split; [exact R|].
  unfold start. rewrite R.
  assert (E : (id owner =? id visitor) = false) by (apply Z.eqb_neq; lia).
  rewrite E. unfold logging. cbn [negb fst with_db db].
  rewrite supabase_increment_once, count_after_add_new_user. reflexivity.
Qed.

Lemma referral_link_credits_its_owner_witness :
  py_int (str_of_int (id Sample.alice)) = Some (id Sample.alice)
  /\ Supabase.get_referral_count (id Sample.alice)
       (db (fst (fst (start 0 Sample.admin
                        (str_of_int (id Sample.alice) :: [])
                        (Sample.credited 5)))))
     = Supabase.get_referral_count (id Sample.alice) (db (Sample.credited 5)) + 1.
Proof.
  apply (referral_link_credits_its_owner 0 Sample.alice Sample.admin []
           (Sample.credited 5)).
  - vm_compute. discriminate.
  - vm_compute. discriminate.
Defined.

(** ** Callbacks and the amount entry *)

(** X18: no button writes to the ledger or to the log: after any callback
    the stored tables are the same, and the random source has moved only
    for a withdrawal by a caller with at least 100 referrals, by the 8
    draws of the reference token. *)
Theorem callbacks_never_write_the_ledger :
  forall cfg user data w,
    let '(w', out, r) := button_callback cfg user data w in
    db w' = db w /\ log w' = log w
    /\ used (rng w')
       = (used (rng w)
          + (if String.eqb data "withdraw"
                && (100 <=? Supabase.get_referral_count (id user) (db w))%Z
             then 8 else 0))%nat.
Proof.
  intros cfg user data w. unfold button_callback.
  destruct (String.eqb_spec data "button1") as [->|N1];
    [cbn; repeat split; lia|].
  destruct (String.eqb_spec data "button2") as [->|N2];
    [cbn; repeat split; lia|].
  destruct (String.eqb_spec data "withdraw") as [->|N3].
  - cbn [andb].
    destruct (100 <=? Supabase.get_referral_count (id user) (db w)).
    + destruct (generate_random_string 8 (rng w)) as [token g] eqn:E.
      destruct (generate_random_string_spec _ _ _ _ E) as (_ & _ & Hu & _).
      cbn [with_rng db log rng]. auto.
    + repeat split. lia.
  - cbn [andb].
    destruct (String.eqb data "home"); repeat split; lia.
Qed.

(** X19: whatever the text and the state of the world, [process_number]
    keeps the conversation in [EXPECTING_NUMBER] and leaves ledger and log
    alone; it sends an invoice exactly when the text reads as a float that
    is at least 50 (so never for [nan]), and it draws 15 random characters
    exactly when it sends one. *)
Theorem process_number_quotes_iff_minimum_met :
  forall user text w,
    let '(w', out, r) := process_number user text w in
    r = Some EXPECTING_NUMBER
    /\ db w' = db w /\ log w' = log w
    /\ (invoices out <> []
        <-> exists a, py_float text = Some a /\ float_ge a fifty = true)
    /\ used (rng w')
       = (used (rng w) + 15 * List.length (invoices out))%nat.
Proof.
  intros user text w. unfold process_number.
  destruct (py_float text) as [a|].
  - destruct (float_ge a fifty) eqn:G.
    + destruct (generate_random_string 15 (rng w)) as [oid g] eqn:E.
      destruct (generate_random_string_spec _ _ _ _ E) as (_ & _ & Hu & _).
      cbn [with_rng db log rng invoices filter List.length].
      repeat split; try lia.
      * intros _. exists a. auto.
      * discriminate.
    + cbn. repeat split; try lia.
      * intros H. contradiction.
      * intros (b & Hb & Hg). injection Hb as <-. congruence.
  - cbn. repeat split; try lia.
    + intros H. contradiction.
    + intros (b & Hb & _). discriminate.
Qed.

Lemma blank_strips_to_nothing : forall text,
  Session.blank text = true -> strip text = "".
Proof.
  intros text H. unfold strip.
  assert (L : lstrip text = "").
  { induction text as [|c t IH]; [reflexivity|].
    cbn [Session.blank] in H. apply andb_true_iff in H as [Hc Ht].
    cbn [lstrip]. rewrite Hc. auto. }
  rewrite L. reflexivity.
Qed.

(** X20: a text that is empty or made of blanks only is not a number: the
    amount entry answers it with the not-a-number message and stays where
    it is. *)
Theorem blank_text_is_not_a_number :
  forall cfg now user text w,
    Session.blank text = true ->
    py_float text = None
    /\ handle_update cfg now user EXPECTING_NUMBER (Text text) w
       = (w, [NotANumber], EXPECTING_NUMBER).
Proof.
  intros cfg now user text w H.
  assert (P : py_float text = None).
  { unfold py_float. rewrite (blank_strips_to_nothing text H). reflexivity. }
  split; [exact P|].
  unfold handle_update, process_number. rewrite P. reflexivity.
Qed.

Lemma blank_text_is_not_a_number_witness :
  py_float "   " = None
  /\ handle_update Sample.cfg 0 Sample.alice EXPECTING_NUMBER (Text "   ")
       Sample.world
     = (Sample.world, [NotANumber], EXPECTING_NUMBER).
Proof.
  apply (blank_text_is_not_a_number Sample.cfg 0 Sample.alice "   "
           Sample.world).
  reflexivity.
Defined.

(** ** Whole conversations *)

Ltac split_options :=
  repeat match goal with
         | |- context [match ?x with Some _ => _ | None => _ end] =>
             destruct x
         end.

Lemma stats_shape : forall cfg now user w,
  invoices (snd (fst (stats cfg now user w))) = []
  /\ snd (stats cfg now user w) = None.
Proof.
  intros. unfold stats.
  destruct (negb (id user =? ADMIN_USER_ID cfg)); [split; reflexivity|].
  split_options; split; reflexivity.
Qed.

Lemma callback_shape : forall cfg user data w,
  invoices (snd (fst (button_callback cfg user data w))) = []
  /\ (snd (button_callback cfg user data w) = Some EXPECTING_NUMBER ->
      data = "button1").
Proof.
  intros. unfold button_callback.
  destruct (String.eqb_spec data "button1"); [split; auto|].
  destruct (String.eqb data "button2"); [split; [reflexivity|discriminate]|].
  destruct (String.eqb data "withdraw").
  - destruct (100 <=? _); [|split; [reflexivity|discriminate]].
    destruct (generate_random_string 8 (rng w)).
    split; [reflexivity|discriminate].
  - destruct (String.eqb data "home"); split; try reflexivity; discriminate.
Qed.

(** One update: an invoice needs the amount-entry state, and the
    amount-entry state is entered through the Buy button only. *)
Lemma one_update : forall cfg now user st u w,
  (invoices (snd (fst (handle_update cfg now user st u w))) <> [] ->
   st = EXPECTING_NUMBER)
  /\ (snd (handle_update cfg now user st u w) = EXPECTING_NUMBER ->
      st = EXPECTING_NUMBER \/ u = Callback "button1").
Proof.
  intros cfg now user st u w. unfold handle_update.
  destruct u as [name args|data|text].
  - destruct (String.eqb name "start").
    + cbn. split; [tauto|discriminate].
    + destruct (String.eqb name "stats").
      * destruct (stats_shape cfg now user w) as [S R].
        destruct (stats cfg now user w) as [[w' out] r].
        cbn [fst snd] in *. subst r. cbn [next_state]. split.
        -- intros H. contradiction.
        -- auto.
      * cbn. split; [tauto|auto].
  - destruct (callback_shape cfg user data w) as [S R].
    destruct (button_callback cfg user data w) as [[w' out] r].
    cbn [fst snd] in *. split.
    + intros H. contradiction.
    + destruct r as [st'|]; cbn [next_state].
      * intros ->. right. f_equal. auto.
      * auto.
  - destruct st.
    + cbn. split; [tauto|discriminate].
    + split; auto.
Qed.

Lemma session_needs_buy : forall cfg user us st w,
  invoices (snd (fst (Session.run cfg user us st w))) <> []
  \/ snd (Session.run cfg user us st w) = EXPECTING_NUMBER ->
  st = EXPECTING_NUMBER \/ In (Callback "button1") (map snd us).
Proof.
  intros cfg user us. induction us as [|[now u] rest IH]; intros st w H.
  - cbn in H. destruct H as [H|H]; [contradiction|auto].
  - cbn [Session.run] in H.
    destruct (one_update cfg now user st u w) as [O1 O2].
    destruct (handle_update cfg now user st u w) as [[w1 out1] st1].
    specialize (IH st1 w1).
    destruct (Session.run cfg user rest st1 w1) as [[w2 out2] st2].
    cbn [fst snd] in *. cbn [map In snd].
    assert (C : invoices out1 <> []
                \/ (invoices out2 <> [] \/ st2 = EXPECTING_NUMBER)).
    { destruct H as [H|H]; [|auto].
      unfold invoices in *. rewrite filter_app in H.
      destruct (filter _ out1); [right; left; exact H|left; discriminate]. }
    destruct C as [C|C]; [auto|].
    destruct (IH C) as [E|E]; [|auto].
    destruct (O2 E) as [E'|E']; auto.
Qed.

(** X21: in a conversation that starts outside the amount entry, an
    invoice is sent only if the Buy button was pressed at some point; the
    same holds for ending the conversation in the amount-entry state. *)
Theorem invoice_only_after_buy :
  forall cfg user us w,
    invoices (snd (fst (Session.run cfg user us END w))) <> []
    \/ snd (Session.run cfg user us END w) = EXPECTING_NUMBER ->
    In (Callback "button1") (map snd us).
Proof.
  intros cfg user us w H.
  destruct (session_needs_buy cfg user us END w H) as [E|E];
    [discriminate|exact E].
Qed.

Lemma invoice_only_after_buy_witness :
  In (Callback "button1")
     (map snd [(0, Callback "button1"); (1, Text "100")]).
Proof.
  apply (invoice_only_after_buy Sample.cfg Sample.alice
           [(0, Callback "button1"); (1, Text "100")] Sample.world).
  left. vm_compute. discriminate.
Defined.

(** ** The admin report *)

(** X22: the admin always gets a statistics report from [/stats], never
    the database-error text: every value the Supabase statistics hold
    converts through [int] and [float].  The report shows the number of
    rows of [users], and its all-time peak is not below the peak of the
    last hour nor below the current connections; the ledger, the random
    source and the conversation state are unchanged. *)
Theorem admin_always_gets_a_report :
  forall cfg now user st args w,
    id user = ADMIN_USER_ID cfg ->
    exists n p a t entries,
      handle_update cfg now user st (Command "stats" args) w
      = (logging w entries,
         [StatsReport n (Z.of_nat (List.length (users (db w)))) p a t], st)
      /\ p <= t /\ n <= t.
Proof.
  intros cfg now user st args w H.
  unfold handle_update. cbn [String.eqb Ascii.eqb Bool.eqb].
  unfold stats. rewrite H, Z.eqb_refl. cbn [negb].
  unfold Supabase.get_unique_users_count.
  unfold Supabase.get_usage_stats. cbv zeta.
  set (all := match map connections (usage_stats (db w)) with
              | [] => 0
              | x :: r => max_list x r
              end).
  destruct (map connections
              (filter (fun r => now - hour <=? timestamp r)
                 (usage_stats (db w)))) as [|x r].
  - cbn [int_of_pyval float_of_pyval current_connections peak_last_hour
           avg_last_hour all_time_max].
    change (float_of_int 0) with (S754_zero false). cbv iota.
    cbn [next_state]. unfold logging. cbn [db rng log].
    rewrite <- app_assoc.
    do 5 eexists. split; [reflexivity|]. split; lia.
  - destruct (int_truediv _ _) as [avg|].
    + cbn [int_of_pyval float_of_pyval current_connections peak_last_hour
             avg_last_hour all_time_max].
      cbn [next_state]. unfold logging. cbn [db rng log].
      rewrite <- app_assoc.
      do 5 eexists. split; [reflexivity|]. split; lia.
    + cbn [zero_stats int_of_pyval float_of_pyval current_connections
             peak_last_hour avg_last_hour all_time_max].
      change (float_of_int 0) with (S754_zero false). cbv iota.
      cbn [next_state]. unfold logging. cbn [db rng log].
      rewrite <- app_assoc.
      do 5 eexists. split; [reflexivity|]. split; lia.
Qed.

Lemma admin_always_gets_a_report_witness :
  exists n p a t entries,
    handle_update Sample.cfg Sample.now Sample.admin END (Command "stats" [])
      {| db := Sample.samples; rng := Sample.oracle; log := [] |}
    = (logging {| db := Sample.samples; rng := Sample.oracle; log := [] |}
         entries,
       [StatsReport n
          (Z.of_nat (List.length
             (users (db {| db := Sample.samples; rng := Sample.oracle;
                           log := [] |}))))
          p a t], END)
    /\ p <= t /\ n <= t.
Proof.
  apply (admin_always_gets_a_report Sample.cfg Sample.now Sample.admin END []
           {| db := Sample.samples; rng := Sample.oracle; log := [] |}).
  reflexivity.
Defined.

(** ** What the handlers leave alone *)

Lemma callback_keeps_db : forall cfg user data w,
  db (fst (fst (button_callback cfg user data w))) = db w.
Proof.
  intros. unfold button_callback.
  destruct (String.eqb data "button1"); [reflexivity|].
  destruct (String.eqb data "button2"); [reflexivity|].
  destruct (String.eqb data "withdraw").
  - destruct (100 <=? _); [|reflexivity].
    destruct (generate_random_string 8 (rng w)); reflexivity.
  - destruct (String.eqb data "home"); reflexivity.
Qed.

Lemma stats_keeps_db : forall cfg now user w,
  db (fst (fst (stats cfg now user w))) = db w.
Proof.
  intros. unfold stats.
  destruct (negb (id user =? ADMIN_USER_ID cfg)); [reflexivity|].
  split_options; reflexivity.
Qed.

Lemma process_number_keeps_db : forall user text w,
  db (fst (fst (process_number user text w))) = db w.
Proof.
  intros. unfold process_number.
  destruct (py_float text) as [a|]; [|reflexivity].
  destruct (float_ge a fifty); [|reflexivity].
  destruct (generate_random_string 15 (rng w)); reflexivity.
Qed.

Lemma start_keeps_usage : forall now user args w,
  usage_stats (db (fst (fst (start now user args w)))) = usage_stats (db w).
Proof.
  intros. unfold start, logging. cbn [fst with_db db].
  pose proof (proj2 (supabase_add_new_user_frame now (id user) (db w))) as F.
  destruct args as [|a rest]; [exact F|].
  destruct (py_int a) as [rid|]; [|exact F].
  destruct (negb (rid =? id user)); [|exact F].
  rewrite supabase_increment_usage. exact F.
Qed.

(** X23: only [/start] writes to the ledger, and no update at all records
    a usage sample: the bot never calls [update_usage_stats], so whatever
    the update, [usage_stats] is the same before and after, and for every
    update other than [/start] so are [users] and [referrals]. *)
Theorem handlers_never_record_usage :
  forall cfg now user st u w,
    usage_stats (db (fst (fst (handle_update cfg now user st u w))))
    = usage_stats (db w)
    /\ ((forall args, u <> Command "start" args) ->
        db (fst (fst (handle_update cfg now user st u w))) = db w).
Proof.
  intros cfg now user st u w.
  assert (G : (exists args, u = Command "start" args)
              \/ db (fst (fst (handle_update cfg now user st u w))) = db w).
  { unfold handle_update. destruct u as [name args|data|text].
    - destruct (String.eqb_spec name "start") as [->|N]; [left; eauto|].
      right. destruct (String.eqb name "stats"); [|reflexivity].
      pose proof (stats_keeps_db cfg now user w) as K.
      destruct (stats cfg now user w) as [[w' out] r]. exact K.
    - right. pose proof (callback_keeps_db cfg user data w) as K.
      destruct (button_callback cfg user data w) as [[w' out] r]. exact K.
    - right. destruct st; [reflexivity|].
      pose proof (process_number_keeps_db user text w) as K.
      destruct (process_number user text w) as [[w' out] r]. exact K. }
  split.
  - destruct G as [[args ->]|G]; [|rewrite G; reflexivity].
    unfold handle_update. cbn [String.eqb Ascii.eqb Bool.eqb].
    pose proof (start_keeps_usage now user args w) as S.
    destruct (start now user args w) as [[w' out] r]. exact S.
  - intros H. destruct G as [[args ->]|G]; [|exact G].
    exfalso. exact (H args eq_refl).
Qed.

(** X24: an amount that reads as zero, as a negative number, as minus
    infinity or as [nan] is answered with the too-low message, and nothing
    else happens. *)
Theorem non_positive_amount_is_too_low :
  forall user text w a,
    py_float text = Some a ->
    match a with
    | S754_zero _ | S754_finite true _ _ | S754_infinity true | S754_nan => True
    | _ => False
    end ->
    process_number user text w = (w, [TooLow], Some EXPECTING_NUMBER).
Proof.
  intros user text w a Hp Ha. unfold process_number. rewrite Hp.
  assert (G : float_ge a fifty = false).
  { unfold float_ge, SFleb, fifty.
    set (m50 := 7036874417766400%positive).
    destruct a as [s|[]| |[] m e]; try contradiction; reflexivity. }
  rewrite G. reflexivity.
Qed.

Lemma non_positive_amount_is_too_low_witness :
  process_number Sample.alice "-75" Sample.world
  = (Sample.world, [TooLow], Some EXPECTING_NUMBER).
Proof.
  apply (non_positive_amount_is_too_low Sample.alice "-75" Sample.world
           (S754_finite true 5277655813324800 (-46))).
  - vm_compute. reflexivity.
  - exact I.
Defined.
